(** * Finance tracker: the ledger engine

    A shallow embedding of the ledger engine of the finance tracker, the
    pure calculations of [lib/finance/calculations.ts] and the actions of
    the store of [lib/store/financeStore.ts], and the properties that the
    specification states about it.

    The engine computes with JavaScript numbers.  It is written here once,
    over an interface [Number] that lists the operations the source uses,
    and run on two implementations of that interface:

    - [float], IEEE 754 binary64 as the kernel implements it: the numbers
      the program computes with.  What the program does on a given input
      is evaluated here;
    - [exact], the rationals with a [NaN] element: the arithmetic of the
      "real-valued monetary amounts" of the specification.  Identities
      that binary64 satisfies only up to rounding are proved here.

    Properties that depend on no law of arithmetic are proved for every
    implementation of the interface.

    What is modelled as what:
    - a [Record<FundId, Fund>] is a finite map from strings, the record
      that [distributeProfit] fills likewise; [Object.entries] is the list
      of the bindings of the map;
    - a [Date] is its time value; [new Date()] and [uuidv4()] are read
      from an environment given to the action;
    - the store is a state with [get], [set] and exceptions; an exception
      leaves the state as it was when it was raised.

    Beside the engine the file covers the rest of the store ([updateFund],
    [resetToDefaults] and the actions on the budgets), the totals of
    [calculateFundTotals], and the two functions of the pages that read and
    write the distribution.  The persistence of [lib/storage/localStorage.ts],
    which works on JSON text and on [localStorage], and the forms, which
    parse what the user types, are left out. *)

From Stdlib Require Import ZArith QArith Qcanon Qround Floats String List Bool Lia Lqa.
From stdpp Require Import gmap strings list fin_maps.

Local Open Scope Z_scope.

(** ** JavaScript numbers *)

Declare Scope js_scope.
Delimit Scope js_scope with js.

(** The operations on [number] that the engine uses. *)
Class Number (num : Type) := {
  (** an integer literal *)
  of_Z : Z -> num;
  (** the number an absent ([undefined]) operand converts to *)
  nan : num;
  num_add : num -> num -> num;
  num_sub : num -> num -> num;
  num_mul : num -> num -> num;
  num_div : num -> num -> num;
  (** [a < b] and [a <= b]; [a > b] is [b < a] *)
  num_lt : num -> num -> bool;
  num_le : num -> num -> bool;
  (** [Math.abs] *)
  Math_abs : num -> num;
  (** [Math.round]: the nearest integer, a tie going up *)
  Math_round : num -> num;
}.

(** An operation is resolved only once the type of its numbers is known:
    no statement picks an arithmetic by default. *)
#[global] Hint Mode Number ! : typeclass_instances.

Notation "a + b" := (num_add a b) : js_scope.
Notation "a - b" := (num_sub a b) : js_scope.
Notation "a * b" := (num_mul a b) : js_scope.
Notation "a / b" := (num_div a b) : js_scope.
Notation "a <? b" := (num_lt a b) : js_scope.
Notation "a >? b" := (num_lt b a) (only parsing) : js_scope.
Notation "a <=? b" := (num_le a b) : js_scope.

(** A decimal literal [a/b], such as [0.01] written [decimal 1 100]: the
    number nearest to the quotient. *)
Definition decimal {num : Type} `{!Number num} (a b : Z) : num :=
  (of_Z a / of_Z b)%js.

(** *** binary64 *)

Definition float_of_Z (z : Z) : float :=
  SF2Prim (binary_normalize prec emax z 0 false).

(** [Math.round] on binary64.  A finite [x] with a non-negative exponent is
    an integer already; otherwise [x = ±m·2^e] with [e < 0] and the result
    is [floor(x + 1/2)], computed on integers, with the sign of [x] when it
    is a zero. *)
Definition float_round (x : float) : float :=
  match Prim2SF x with
  | S754_finite s m e =>
      if 0 <=? e then x
      else
        let z := if s then Zneg m else Zpos m in
        let r := (2 * z + 2 ^ (- e)) / 2 ^ (1 - e) in
        if r =? 0 then (if s then PrimFloat.neg_zero else PrimFloat.zero)
        else float_of_Z r
  | _ => x
  end.

#[export] Instance float_Number : Number float := {|
  of_Z := float_of_Z;
  nan := PrimFloat.nan;
  num_add := PrimFloat.add;
  num_sub := PrimFloat.sub;
  num_mul := PrimFloat.mul;
  num_div := PrimFloat.div;
  num_lt := PrimFloat.ltb;
  num_le := PrimFloat.leb;
  Math_abs := PrimFloat.abs;
  Math_round := float_round;
|}.

(** *** Exact arithmetic *)

(** A rational, or [NaN]: the result of dividing by zero and of arithmetic
    on an absent operand.  [NaN] compares false with everything.  There are
    no infinities: a division by zero, which gives one in binary64 when the
    numerator is not zero, gives [NaN] here, and every statement below about
    exact arithmetic assumes the divisor is not zero. *)
Inductive exact : Type :=
  | Fin (q : Qc)
  | NaN.

Definition exact_lift2 (f : Qc -> Qc -> Qc) (a b : exact) : exact :=
  match a, b with
  | Fin x, Fin y => Fin (f x y)
  | _, _ => NaN
  end.

Definition exact_div (a b : exact) : exact :=
  match a, b with
  | Fin x, Fin y => if Qc_eq_dec y 0%Qc then NaN else Fin (x / y)%Qc
  | _, _ => NaN
  end.

Definition exact_lt (a b : exact) : bool :=
  match a, b with
  | Fin x, Fin y => match (x ?= y)%Qc with Lt => true | _ => false end
  | _, _ => false
  end.

Definition exact_le (a b : exact) : bool :=
  match a, b with
  | Fin x, Fin y => match (x ?= y)%Qc with Gt => false | _ => true end
  | _, _ => false
  end.

Definition Qc_of_Z (z : Z) : Qc := Q2Qc (inject_Z z).

Definition exact_abs (a : exact) : exact :=
  match a with
  | Fin x => Fin (if Qclt_le_dec x 0%Qc then (- x)%Qc else x)
  | NaN => NaN
  end.

Definition exact_round (a : exact) : exact :=
  match a with
  | Fin x => Fin (Qc_of_Z (Qfloor (x + (1 # 2))%Q))
  | NaN => NaN
  end.

#[export] Instance exact_Number : Number exact := {|
  of_Z := fun z => Fin (Qc_of_Z z);
  nan := NaN;
  num_add := exact_lift2 Qcplus;
  num_sub := exact_lift2 Qcminus;
  num_mul := exact_lift2 Qcmult;
  num_div := exact_div;
  num_lt := exact_lt;
  num_le := exact_le;
  Math_abs := exact_abs;
  Math_round := exact_round;
|}.

(** ** Exceptions *)

(** The text of an [Error]: a fixed message, or the message of
    [validateProfitDistribution], which quotes the total it found. *)
Inductive message (num : Type) : Type :=
  | Msg (text : string)
  | SumMsg (total : num).
Arguments Msg {num} text.
Arguments SumMsg {num} total.

(** What a call can raise: [throw new Error(m)], or the [TypeError] of
    reading a property of [undefined]. *)
Inductive exception (num : Type) : Type :=
  | Error (m : message num)
  | TypeError.
Arguments Error {num} m.
Arguments TypeError {num}.

Inductive result (num A : Type) : Type :=
  | Ok (a : A)
  | Throw (e : exception num).
Arguments Ok {num A} a.
Arguments Throw {num A} e.

Definition result_bind {num A B : Type}
    (r : result num A) (k : A -> result num B) : result num B :=
  match r with
  | Ok a => k a
  | Throw e => Throw e
  end.

Notation "x <- r ;; k" := (result_bind r (fun x => k))
  (at level 100, r at next level, right associativity) : js_scope.

(** ** The data model ([types/index.ts]) *)

Abbreviation FundId := string (only parsing).

(** A [Date], as its time value in milliseconds. *)
Abbreviation Date := Z (only parsing).

Inductive TransactionType : Type := INCOME | EXPENSE.

#[export] Instance TransactionType_eq_dec : EqDecision TransactionType.
Proof. solve_decision. Defined.

Section Engine.

Context {num : Type} `{!Number num}.

Local Open Scope js_scope.

Record Fund : Type := {
  fund_id : FundId;
  fund_name : string;
  fund_description : string;
  currentBalance : num;
  lifetimeInflow : num;
  lifetimeOutflow : num;
  fund_color : option string;
  isTaxFund : option bool;
  fund_createdAt : Date;
  fund_updatedAt : Date;
}.

(** [Omit<Transaction, 'id' | 'createdAt' | 'updatedAt'>]: what a caller
    submits. *)
Record TransactionData : Type := {
  type : TransactionType;
  amount : num;
  date : Date;
  description : string;
  costOfProduction : option num;
  profit : option num;
  sourceFundId : option FundId;
}.

(** A [Transaction]: the submitted fields and the ones the store assigns. *)
Record Transaction : Type := {
  tx_id : string;
  tx_data :> TransactionData;
  tx_createdAt : Date;
  tx_updatedAt : Date;
}.

Record ProfitDistribution : Type := {
  fundId : FundId;
  percentage : num;
}.

Record FinancialState : Type := {
  funds : gmap FundId Fund;
  transactions : list Transaction;
  profitDistribution : list ProfitDistribution;
  taxEnabled : bool;
  lastUpdated : Date;
}.

(** The argument of [createFund]: a [Fund] without its id, its balance and
    counters and its timestamps. *)
Record FundData : Type := {
  name : string;
  fd_description : string;
  color : option string;
  fd_isTaxFund : option bool;
}.

(** What the store takes from its environment during one action: the clock
    ([new Date()]) and a fresh identifier ([uuidv4()]). *)
Record Env : Type := {
  now : Date;
  uuid : string;
}.

(** The non-null assertion [x!] in an arithmetic position: an absent
    operand behaves as [NaN]. *)
Definition assert_number (x : option num) : num :=
  match x with
  | Some v => v
  | None => nan
  end.

(** ** Pure calculations ([lib/finance/calculations.ts]) *)

Definition calculateProfit (income costOfProduction : num) : result num num :=
  if income <? of_Z 0 then Throw (Error (Msg "Income cannot be negative"))
  else if costOfProduction <? of_Z 0
  then Throw (Error (Msg "Cost of production cannot be negative"))
  else if costOfProduction >? income
  then Throw (Error (Msg "Cost of production cannot exceed income"))
  else Ok (income - costOfProduction).

(** The result of a validation: [{ isValid, error? }]. *)
Record Validation : Type := {
  isValid : bool;
  error : option (message num);
}.

Definition valid : Validation := {| isValid := true; error := None |}.
Definition invalid (m : message num) : Validation :=
  {| isValid := false; error := Some m |}.

(** [distributions.reduce((sum, dist) => sum + dist.percentage, 0)] *)
Definition total_percentage (distributions : list ProfitDistribution) : num :=
  fold_left (fun sum dist => sum + percentage dist) distributions (of_Z 0).

Definition validateProfitDistribution
    (distributions : list ProfitDistribution) : Validation :=
  let total := total_percentage distributions in
  if Math_abs (total - of_Z 100) >? decimal 1 100
  then invalid (SumMsg total)
  else valid.

(** [Math.round(x * 100) / 100] *)
Definition round2 (x : num) : num := Math_round (x * of_Z 100) / of_Z 100.

(** The [for] loop of [distributeProfit] from index [i] on, over the
    entries that are left, with the record [result] and [remaining] as they
    stand; [n] is [distributions.length]. *)
Fixpoint distribute_for (profit : num) (n i : nat)
    (distributions : list ProfitDistribution)
    (result : gmap FundId num) (remaining : num) : gmap FundId num :=
  match distributions with
  | [] => result
  | d :: rest =>
      if (i =? n - 1)%nat
      then
        distribute_for profit n (S i) rest
          (<[fundId d := round2 remaining]> result) remaining
      else
        let amount := round2 (profit * percentage d / of_Z 100) in
        distribute_for profit n (S i) rest
          (<[fundId d := amount]> result) (remaining - amount)
  end.

Definition distributeProfit (profit : num)
    (distributions : list ProfitDistribution) : result num (gmap FundId num) :=
  let validation := validateProfitDistribution distributions in
  if negb (isValid validation)
  then Throw (Error (default (Msg "Invalid profit distribution") (error validation)))
  else Ok (distribute_for profit (length distributions) 0 distributions ∅ profit).

(** The same loop without its index: the entry at hand is the last one,
    [i === distributions.length - 1], exactly when no entry follows it. *)
Fixpoint distribute_loop (profit : num) (distributions : list ProfitDistribution)
    (result : gmap FundId num) (remaining : num) : gmap FundId num :=
  match distributions with
  | [] => result
  | d :: rest =>
      match rest with
      | [] => <[fundId d := round2 remaining]> result
      | _ :: _ =>
          let amount := round2 (profit * percentage d / of_Z 100) in
          distribute_loop profit rest (<[fundId d := amount]> result) (remaining - amount)
      end
  end.

(** An optional string when it is truthy: present and not empty.  [!s]
    holds when there is none. *)
Definition truthy (s : option string) : option string :=
  match s with
  | Some s => if bool_decide (s = EmptyString) then None else Some s
  | None => None
  end.

Definition validateTransaction (today : Date) (transaction : TransactionData)
    (funds : gmap FundId Fund) : result num Validation :=
  if amount transaction <=? of_Z 0 then Ok (invalid (Msg "Amount must be positive"))
  else if (today <? date transaction)%Z
  then Ok (invalid (Msg "Transaction date cannot be in the future"))
  else
    match type transaction with
    | INCOME =>
        match costOfProduction transaction with
        | None => Ok (invalid (Msg "Cost of production is required for income"))
        | Some cost =>
            if cost <? of_Z 0
            then Ok (invalid (Msg "Cost of production cannot be negative"))
            else if cost >? amount transaction
            then Ok (invalid (Msg "Cost of production cannot exceed income"))
            else
              profit <- calculateProfit (amount transaction) cost ;;
              if profit <? of_Z 0
              then Ok (invalid (Msg "Profit must be non-negative"))
              else Ok valid
        end
    | EXPENSE =>
        match truthy (sourceFundId transaction) with
        | None => Ok (invalid (Msg "Source fund is required for expenses"))
        | Some source =>
            match funds !! source with
            | None => Ok (invalid (Msg "Selected fund does not exist"))
            | Some sourceFund =>
                if currentBalance sourceFund <? amount transaction
                then Ok (invalid (Msg "Insufficient funds in selected account"))
                else Ok valid
            end
        end
    end.

(** A fund that receives an allocation:
    [{...fund, currentBalance: + amount, lifetimeInflow: + amount, updatedAt: now}] *)
Definition credited (today : Date) (fund : Fund) (allocation : num) : Fund :=
  {| fund_id := fund_id fund;
     fund_name := fund_name fund;
     fund_description := fund_description fund;
     currentBalance := currentBalance fund + allocation;
     lifetimeInflow := lifetimeInflow fund + allocation;
     lifetimeOutflow := lifetimeOutflow fund;
     fund_color := fund_color fund;
     isTaxFund := isTaxFund fund;
     fund_createdAt := fund_createdAt fund;
     fund_updatedAt := today;
  |}.

(** The body of the [forEach] over the entries of the allocation: a fund
    that exists is credited, an entry without a fund is skipped. *)
Definition credit (today : Date) (updatedFunds : gmap FundId Fund)
    (entry : FundId * num) : gmap FundId Fund :=
  let '(id, allocation) := entry in
  match updatedFunds !! id with
  | Some fund => <[id := credited today fund allocation]> updatedFunds
  | None => updatedFunds
  end.

(** The source fund of an expense:
    [{...fund, currentBalance: - amount, lifetimeOutflow: + amount, updatedAt: now}] *)
Definition debit (today : Date) (fund : Fund) (amount : num) : Fund :=
  {| fund_id := fund_id fund;
     fund_name := fund_name fund;
     fund_description := fund_description fund;
     currentBalance := currentBalance fund - amount;
     lifetimeInflow := lifetimeInflow fund;
     lifetimeOutflow := lifetimeOutflow fund + amount;
     fund_color := fund_color fund;
     isTaxFund := isTaxFund fund;
     fund_createdAt := fund_createdAt fund;
     fund_updatedAt := today;
  |}.

Definition applyTransactionToFunds (today : Date) (funds : gmap FundId Fund)
    (transaction : Transaction) (distributions : list ProfitDistribution)
    : result num (gmap FundId Fund) :=
  match type transaction with
  | INCOME =>
      profit <- calculateProfit (amount transaction)
                  (assert_number (costOfProduction transaction)) ;;
      distributionsMap <- distributeProfit profit distributions ;;
      Ok (fold_left (credit today) (map_to_list distributionsMap) funds)
  | EXPENSE =>
      match truthy (sourceFundId transaction) with
      | Some source =>
          match funds !! source with
          | Some fund => Ok (<[source := debit today fund (amount transaction)]> funds)
          | None => Ok funds
          end
      | None => Ok funds
      end
  end.

(** [calculateFundTotals(funds).totalBalance] *)
Definition totalBalance (funds : gmap FundId Fund) : num :=
  map_fold (fun _ fund acc => acc + currentBalance fund) (of_Z 0) funds.

(** The sum of the amounts of an allocation. *)
Definition allocated_total (allocation : gmap FundId num) : num :=
  map_fold (fun _ a acc => acc + a) (of_Z 0) allocation.

(** ** The store ([lib/store/financeStore.ts]) *)

(** An action of the store reads the state ([get]), may replace it ([set])
    and may raise; what it raises leaves the state as the action left it. *)
Definition Store (A : Type) : Type :=
  FinancialState -> result num A * FinancialState.

Definition store_ret {A : Type} (a : A) : Store A := fun s => (Ok a, s).

Definition store_bind {A B : Type} (m : Store A) (k : A -> Store B) : Store B :=
  fun s =>
    match m s with
    | (Ok a, s') => k a s'
    | (Throw e, s') => (Throw e, s')
    end.

Definition get : Store FinancialState := fun s => (Ok s, s).

Definition set (f : FinancialState -> FinancialState) : Store unit :=
  fun s => (Ok tt, f s).

Definition throw {A : Type} (e : exception num) : Store A :=
  fun s => (Throw e, s).

(** A call of one of the pure functions from inside an action. *)
Definition call {A : Type} (r : result num A) : Store A := fun s => (r, s).

Notation "x <<- m ;; k" := (store_bind m (fun x => k))
  (at level 100, m at next level, right associativity).

Definition addTransaction (env : Env) (transactionData : TransactionData)
    : Store unit :=
  state <<- get ;;
  validation <<- call (validateTransaction (now env) transactionData (funds state)) ;;
  if negb (isValid validation)
  then throw (Error (default (Msg EmptyString) (error validation)))
  else
    profit <<- call
      match type transactionData with
      | INCOME =>
          p <- calculateProfit (amount transactionData)
                 (assert_number (costOfProduction transactionData)) ;;
          Ok (Some p)
      | EXPENSE => Ok None
      end ;;
    let transaction :=
      {| tx_id := uuid env;
         tx_data :=
           {| type := type transactionData;
              amount := amount transactionData;
              date := date transactionData;
              description := description transactionData;
              costOfProduction := costOfProduction transactionData;
              profit := profit;
              sourceFundId := sourceFundId transactionData |};
         tx_createdAt := now env;
         tx_updatedAt := now env |} in
    updatedFunds <<- call
      (applyTransactionToFunds (now env) (funds state) transaction
         (profitDistribution state)) ;;
    set (fun state =>
      {| funds := updatedFunds;
         transactions := transactions state ++ [transaction];
         profitDistribution := profitDistribution state;
         taxEnabled := taxEnabled state;
         lastUpdated := now env |}).

Definition createFund (env : Env) (fundData : FundData) : Store unit :=
  let newFund :=
    {| fund_id := uuid env;
       currentBalance := of_Z 0;
       lifetimeInflow := of_Z 0;
       lifetimeOutflow := of_Z 0;
       fund_createdAt := now env;
       fund_updatedAt := now env;
       fund_name := name fundData;
       fund_description := fd_description fundData;
       fund_color := color fundData;
       isTaxFund := fd_isTaxFund fundData |} in
  set (fun state =>
    {| funds := <[fund_id newFund := newFund]> (funds state);
       transactions := transactions state;
       profitDistribution := profitDistribution state;
       taxEnabled := taxEnabled state;
       lastUpdated := now env |}).

(** [t.type === 'EXPENSE' && t.sourceFundId === fundId] *)
Definition references (id : FundId) (t : Transaction) : bool :=
  bool_decide (type t = EXPENSE) && bool_decide (sourceFundId t = Some id).

Definition deleteFund (env : Env) (id : FundId) : Store unit :=
  state <<- get ;;
  match funds state !! id with
  | None => throw TypeError
  | Some fund =>
      if currentBalance fund >? of_Z 0
      then throw (Error (Msg "Cannot delete fund with remaining balance"))
      else
        let hasReferences := existsb (references id) (transactions state) in
        if hasReferences
        then throw (Error (Msg "Cannot delete fund referenced in transactions"))
        else
          let newDistribution :=
            List.filter (fun d => negb (bool_decide (fundId d = id)))
              (profitDistribution state) in
          set (fun state =>
            {| funds := delete id (funds state);
               transactions := transactions state;
               profitDistribution := newDistribution;
               taxEnabled := taxEnabled state;
               lastUpdated := now env |})
  end.

Definition updateProfitDistribution (env : Env)
    (distributions : list ProfitDistribution) : Store unit :=
  set (fun state =>
    {| funds := funds state;
       transactions := transactions state;
       profitDistribution := distributions;
       taxEnabled := taxEnabled state;
       lastUpdated := now env |}).

(** [currentDistribution.map(d => ({...d, percentage: (d.percentage / total) * scale}))] *)
Definition rescale (total scale : num) (d : ProfitDistribution) : ProfitDistribution :=
  {| fundId := fundId d; percentage := (percentage d / total) * scale |}.

Definition toggleTaxFund (env : Env) (enabled : bool) : Store unit :=
  if enabled then
    state <<- get ;;
    let currentDistribution := profitDistribution state in
    let totalWithoutTaxes := total_percentage currentDistribution in
    let scaledDistribution :=
      map (rescale totalWithoutTaxes (of_Z 95)) currentDistribution in
    set (fun state =>
      {| funds := funds state;
         transactions := transactions state;
         profitDistribution :=
           scaledDistribution ++ [{| fundId := "taxes"; percentage := of_Z 5 |}];
         taxEnabled := true;
         lastUpdated := now env |})
  else
    state <<- get ;;
    let currentDistribution :=
      List.filter (fun d => negb (bool_decide (fundId d = "taxes")))
        (profitDistribution state) in
    let totalWithoutTaxes := total_percentage currentDistribution in
    let scaledDistribution :=
      map (rescale totalWithoutTaxes (of_Z 100)) currentDistribution in
    set (fun state =>
      {| funds := funds state;
         transactions := transactions state;
         profitDistribution := scaledDistribution;
         taxEnabled := false;
         lastUpdated := now env |}).

(** *** The initial state *)

Definition default_fund (boot : Date) (id name description colour : string)
    (tax : option bool) : Fund :=
  {| fund_id := id;
     fund_name := name;
     fund_description := description;
     currentBalance := of_Z 0;
     lifetimeInflow := of_Z 0;
     lifetimeOutflow := of_Z 0;
     fund_color := Some colour;
     isTaxFund := tax;
     fund_createdAt := boot;
     fund_updatedAt := boot |}.

Definition DEFAULT_FUNDS (boot : Date) : gmap FundId Fund :=
  list_to_map
    [ ("business-savings",
        default_fund boot "business-savings" "Business Savings" "Operational buffer" "#3B82F6" None);
      ("reinvestment",
        default_fund boot "reinvestment" "Reinvestment / Growth" "Business expansion" "#10B981" None);
      ("personal",
        default_fund boot "personal" "Personal" "Owner's salary" "#8B5CF6" None);
      ("emergency",
        default_fund boot "emergency" "Emergency Fund" "Unexpected needs" "#EF4444" None);
      ("baby",
        default_fund boot "baby" "Baby Fund" "Child-related expenses" "#F59E0B" None);
      ("general-savings",
        default_fund boot "general-savings" "General Savings" "Long-term goals" "#6366F1" None);
      ("misc",
        default_fund boot "misc" "Misc / Flex" "Discretionary spending" "#EC4899" None);
      ("taxes",
        default_fund boot "taxes" "Taxes" "Tax obligations" "#6B7280" (Some true)) ].

Definition share (id : FundId) (p : Z) : ProfitDistribution :=
  {| fundId := id; percentage := of_Z p |}.

Definition DEFAULT_DISTRIBUTION : list ProfitDistribution :=
  [ share "business-savings" 20;
    share "reinvestment" 15;
    share "personal" 25;
    share "emergency" 10;
    share "baby" 5;
    share "general-savings" 10;
    share "misc" 10;
    share "taxes" 5 ].

(** The state the store starts from, created at time [boot]. *)
Definition initial (boot : Date) : FinancialState :=
  {| funds := DEFAULT_FUNDS boot;
     transactions := [];
     profitDistribution := DEFAULT_DISTRIBUTION;
     taxEnabled := false;
     lastUpdated := boot |}.

(** *** Reachable states *)

(** One completed action of the store.  [uuidv4()] gives [createFund] an
    identifier that is not in use. *)
Inductive step (s s' : FinancialState) : Prop :=
  | step_addTransaction (env : Env) (transactionData : TransactionData) :
      addTransaction env transactionData s = (Ok tt, s') -> step s s'
  | step_createFund (env : Env) (fundData : FundData) :
      funds s !! uuid env = None ->
      createFund env fundData s = (Ok tt, s') -> step s s'
  | step_deleteFund (env : Env) (id : FundId) :
      deleteFund env id s = (Ok tt, s') -> step s s'
  | step_updateProfitDistribution (env : Env)
      (distributions : list ProfitDistribution) :
      updateProfitDistribution env distributions s = (Ok tt, s') -> step s s'
  | step_toggleTaxFund (env : Env) (enabled : bool) :
      toggleTaxFund env enabled s = (Ok tt, s') -> step s s'.

Inductive reachable : FinancialState -> Prop :=
  | reachable_initial (boot : Date) : reachable (initial boot)
  | reachable_step (s s' : FinancialState) :
      reachable s -> step s s' -> reachable s'.

End Engine.

Arguments Fund num : clear implicits.
Arguments TransactionData num : clear implicits.
Arguments Transaction num : clear implicits.
Arguments ProfitDistribution num : clear implicits.
Arguments FinancialState num : clear implicits.
Arguments Validation num : clear implicits.
Arguments Store num A : clear implicits.

(** ** The rest of the store and its callers *)

Section Application.

Context {num : Type} `{!Number num}.

Local Open Scope js_scope.

(** *** Totals ([calculateFundTotals]) *)

(** The accumulator of the [reduce]; the function returns its fields as
    [totalBalance], [totalInflow] and [totalOutflow]. *)
Record Totals : Type := {
  balance : num;
  inflow : num;
  outflow : num;
}.

(** The callback of the [reduce]. *)
Definition accumulate (acc : Totals) (fund : Fund num) : Totals :=
  {| balance := balance acc + currentBalance fund;
     inflow := inflow acc + lifetimeInflow fund;
     outflow := outflow acc + lifetimeOutflow fund |}.

(** [Object.values(funds).reduce(...)].  The funds are taken in the order
    of the map; the totals are stated below in exact arithmetic, where the
    order of a sum does not matter. *)
Definition calculateFundTotals (funds : gmap FundId (Fund num)) : Totals :=
  map_fold (fun _ fund acc => accumulate acc fund)
    {| balance := of_Z 0; inflow := of_Z 0; outflow := of_Z 0 |} funds.

(** *** The pages *)

(** [getDistributionPercentage] of the funds page:
    [profitDistribution.find(d => d.fundId === fundId)], and 0 without an
    entry. *)
Definition getDistributionPercentage
    (profitDistribution : list (ProfitDistribution num)) (id : FundId) : num :=
  match List.find (fun d => bool_decide (fundId d = id)) profitDistribution with
  | Some distribution => percentage distribution
  | None => of_Z 0
  end.

(** [handleSaveDistribution] of the settings page.  [distributionValues]
    is the record of the form as [Object.entries] lists it, every fund
    once; the result is the text of the [alert]. *)
Definition handleSaveDistribution (env : Env)
    (distributionValues : list (FundId * num)) : Store num (option (message num)) :=
  let newDistribution :=
    List.filter (fun d => percentage d >? of_Z 0)
      (map (fun '(id, p) => {| fundId := id; percentage := p |})
         distributionValues) in
  let validation := validateProfitDistribution newDistribution in
  if negb (isValid validation)
  then store_ret (error validation)
  else
    store_bind (updateProfitDistribution env newDistribution) (fun _ =>
    store_ret (Some (Msg "Profit distribution updated successfully!"))).

(** [totalPercentage] of the settings page, the total of everything the
    form holds: [Object.values(distributionValues).reduce((sum, val) => sum + val, 0)] *)
Definition totalPercentage (distributionValues : list (FundId * num)) : num :=
  fold_left (fun sum val => sum + val) distributionValues.*2 (of_Z 0).

(** Whether the page marks the total as right:
    [Math.abs(totalPercentage - 100) < 0.01] *)
Definition total_marked_right (distributionValues : list (FundId * num)) : bool :=
  Math_abs (totalPercentage distributionValues - of_Z 100) <? decimal 1 100.

(** *** [updateFund] *)

(** A [Partial<Fund>]: the fields that an update gives. *)
Record FundUpdates : Type := {
  set_id : option FundId;
  set_name : option string;
  set_description : option string;
  set_currentBalance : option num;
  set_lifetimeInflow : option num;
  set_lifetimeOutflow : option num;
  set_color : option (option string);
  set_isTaxFund : option (option bool);
  set_createdAt : option Date;
}.

(** [{...fund, ...updates, updatedAt: new Date()}]; an [updatedAt] of the
    update is overwritten. *)
Definition updated (today : Date) (fund : Fund num) (updates : FundUpdates)
    : Fund num :=
  {| fund_id := default (fund_id fund) (set_id updates);
     fund_name := default (fund_name fund) (set_name updates);
     fund_description := default (fund_description fund) (set_description updates);
     currentBalance := default (currentBalance fund) (set_currentBalance updates);
     lifetimeInflow := default (lifetimeInflow fund) (set_lifetimeInflow updates);
     lifetimeOutflow := default (lifetimeOutflow fund) (set_lifetimeOutflow updates);
     fund_color := default (fund_color fund) (set_color updates);
     isTaxFund := default (isTaxFund fund) (set_isTaxFund updates);
     fund_createdAt := default (fund_createdAt fund) (set_createdAt updates);
     fund_updatedAt := today |}.

(** [updateFund] on a fund of the state.  For an identifier without a fund
    the source stores under it an object with the fields of the update and
    [updatedAt] alone, which is no [Fund]: there is no state for that here
    and the result is [None]. *)
Definition updateFund (env : Env) (id : FundId) (updates : FundUpdates)
    (state : FinancialState num) : option (FinancialState num) :=
  match funds state !! id with
  | Some fund =>
      Some {| funds := <[id := updated (now env) fund updates]> (funds state);
              transactions := transactions state;
              profitDistribution := profitDistribution state;
              taxEnabled := taxEnabled state;
              lastUpdated := now env |}
  | None => None
  end.

(** The update of the Rename button of the funds page: [{ name: newName }]. *)
Definition rename (newName : string) : FundUpdates :=
  {| set_id := None; set_name := Some newName; set_description := None;
     set_currentBalance := None; set_lifetimeInflow := None;
     set_lifetimeOutflow := None; set_color := None; set_isTaxFund := None;
     set_createdAt := None |}.

(** *** Budgets *)

Inductive BudgetStatus : Type := ACTIVE | COMPLETED | ARCHIVED.

Record BudgetAllocation : Type := {
  allocation_fundId : FundId;
  allocation_percentage : num;
}.

Record Budget : Type := {
  budget_id : string;
  budget_name : string;
  targetAmount : num;
  currentAmount : num;
  status : BudgetStatus;
  allocations : list BudgetAllocation;
  budget_createdAt : Date;
  budget_updatedAt : Date;
}.

(** The argument of [addBudget]: a [Budget] without its id, its current
    amount, its status and its timestamps. *)
Record BudgetData : Type := {
  new_name : string;
  new_targetAmount : num;
  new_allocations : list BudgetAllocation;
}.

(** A [Partial<Budget>]. *)
Record BudgetUpdates : Type := {
  put_id : option string;
  put_name : option string;
  put_targetAmount : option num;
  put_currentAmount : option num;
  put_status : option BudgetStatus;
  put_allocations : option (list BudgetAllocation);
  put_createdAt : option Date;
}.

(** The whole state of the store: the ledger and the budgets. *)
Record FinanceStore : Type := {
  ledger : FinancialState num;
  budgets : list Budget;
}.

(** [set({..., lastUpdated: new Date()})] on the ledger. *)
Definition touch (env : Env) (state : FinancialState num) : FinancialState num :=
  {| funds := funds state;
     transactions := transactions state;
     profitDistribution := profitDistribution state;
     taxEnabled := taxEnabled state;
     lastUpdated := now env |}.

Definition addBudget (env : Env) (budgetData : BudgetData)
    (store : FinanceStore) : FinanceStore :=
  let newBudget :=
    {| budget_id := uuid env;
       currentAmount := of_Z 0;
       status := ACTIVE;
       budget_createdAt := now env;
       budget_updatedAt := now env;
       budget_name := new_name budgetData;
       targetAmount := new_targetAmount budgetData;
       allocations := new_allocations budgetData |} in
  {| ledger := touch env (ledger store);
     budgets := budgets store ++ [newBudget] |}.

(** [{ ...budget, ...updates, updatedAt: new Date() }] *)
Definition patched (today : Date) (budget : Budget) (updates : BudgetUpdates)
    : Budget :=
  {| budget_id := default (budget_id budget) (put_id updates);
     budget_name := default (budget_name budget) (put_name updates);
     targetAmount := default (targetAmount budget) (put_targetAmount updates);
     currentAmount := default (currentAmount budget) (put_currentAmount updates);
     status := default (status budget) (put_status updates);
     allocations := default (allocations budget) (put_allocations updates);
     budget_createdAt := default (budget_createdAt budget) (put_createdAt updates);
     budget_updatedAt := today |}.

Definition updateBudget (env : Env) (budgetId : string) (updates : BudgetUpdates)
    (store : FinanceStore) : FinanceStore :=
  {| ledger := touch env (ledger store);
     budgets :=
       map (fun budget =>
              if bool_decide (budget_id budget = budgetId)
              then patched (now env) budget updates
              else budget)
         (budgets store) |}.

Definition deleteBudget (env : Env) (budgetId : string)
    (store : FinanceStore) : FinanceStore :=
  {| ledger := touch env (ledger store);
     budgets :=
       List.filter (fun b => negb (bool_decide (budget_id b = budgetId)))
         (budgets store) |}.

(** The update of the buttons of a budget card: [{ status }]. *)
Definition restatus (s : BudgetStatus) : BudgetUpdates :=
  {| put_id := None; put_name := None; put_targetAmount := None;
     put_currentAmount := None; put_status := Some s; put_allocations := None;
     put_createdAt := None |}.

(** [resetToDefaults]; [boot] is the time at which the module, and with it
    [DEFAULT_FUNDS], was loaded. *)
Definition resetToDefaults (boot : Date) (env : Env) (store : FinanceStore)
    : FinanceStore :=
  {| ledger :=
       {| funds := DEFAULT_FUNDS boot;
          transactions := [];
          profitDistribution := DEFAULT_DISTRIBUTION;
          taxEnabled := false;
          lastUpdated := now env |};
     budgets := [] |}.

(** The store as it starts. *)
Definition initial_store (boot : Date) : FinanceStore :=
  {| ledger := initial boot; budgets := [] |}.

(** One completed action of the whole store: an action of the ledger, which
    leaves the budgets alone; [updateFund] on a fund that exists, with an
    update that gives no balance and no counter, as that of the Rename
    button, the one call of it in the pages; an action on the budgets; or
    [resetToDefaults]. *)
Inductive store_step (boot : Date) (st st' : FinanceStore) : Prop :=
  | store_step_ledger :
      step (ledger st) (ledger st') -> budgets st' = budgets st ->
      store_step boot st st'
  | store_step_updateFund (env : Env) (id : FundId) (updates : FundUpdates) :
      set_currentBalance updates = None ->
      set_lifetimeInflow updates = None ->
      set_lifetimeOutflow updates = None ->
      updateFund env id updates (ledger st) = Some (ledger st') ->
      budgets st' = budgets st ->
      store_step boot st st'
  | store_step_addBudget (env : Env) (budgetData : BudgetData) :
      st' = addBudget env budgetData st -> store_step boot st st'
  | store_step_updateBudget (env : Env) (budgetId : string)
      (updates : BudgetUpdates) :
      st' = updateBudget env budgetId updates st -> store_step boot st st'
  | store_step_deleteBudget (env : Env) (budgetId : string) :
      st' = deleteBudget env budgetId st -> store_step boot st st'
  | store_step_resetToDefaults (env : Env) :
      st' = resetToDefaults boot env st -> store_step boot st st'.

Inductive store_reachable (boot : Date) : FinanceStore -> Prop :=
  | store_reachable_initial : store_reachable boot (initial_store boot)
  | store_reachable_step (st st' : FinanceStore) :
      store_reachable boot st -> store_step boot st st' ->
      store_reachable boot st'.

End Application.

Arguments Totals num : clear implicits.
Arguments FundUpdates num : clear implicits.
Arguments BudgetAllocation num : clear implicits.
Arguments Budget num : clear implicits.
Arguments BudgetData num : clear implicits.
Arguments BudgetUpdates num : clear implicits.
Arguments FinanceStore num : clear implicits.

(** ** Scenarios *)

(** The state an action leaves behind. *)
Definition after {num A : Type} (m : Store num A) (s : FinancialState num)
    : FinancialState num :=
  (m s).2.

(** An income of [a] with cost of production [c], and an expense of [a]
    from fund [source], both dated at time 0. *)
Definition income {num : Type} (a c : num) : TransactionData num :=
  {| type := INCOME; amount := a; date := 0; description := "sale";
     costOfProduction := Some c; profit := None; sourceFundId := None |}.

Definition expense {num : Type} (a : num) (source : FundId) : TransactionData num :=
  {| type := EXPENSE; amount := a; date := 0; description := "purchase";
     costOfProduction := None; profit := None; sourceFundId := Some source |}.

(** A moment after every date used below, and the identifier handed out. *)
Definition env1 : Env := {| now := 1000; uuid := "id-1" |}.

(** A fund with the given balance and counters. *)
Definition fund_with {num : Type} (id : FundId) (balance inflow outflow : num)
    : Fund num :=
  {| fund_id := id; fund_name := id; fund_description := id;
     currentBalance := balance; lifetimeInflow := inflow;
     lifetimeOutflow := outflow; fund_color := None; isTaxFund := None;
     fund_createdAt := 0; fund_updatedAt := 0 |}.

(** A state with the given funds, transactions and distribution. *)
Definition state_with {num : Type} (fs : gmap FundId (Fund num))
    (ts : list (Transaction num)) (ds : list (ProfitDistribution num))
    : FinancialState num :=
  {| funds := fs; transactions := ts; profitDistribution := ds;
     taxEnabled := false; lastUpdated := 0 |}.

(** The share of the profit that the percentage of an entry gives it. *)
Definition share_of {num : Type} `{!Number num} (profit : num)
    (d : ProfitDistribution num) : num :=
  round2 (profit * percentage d / of_Z 100)%js.

(** The sum of a list of numbers, from the left. *)
Definition sum_of {num : Type} `{!Number num} (l : list num) : num :=
  fold_left num_add l (of_Z 0).

(** Enabling the tax fund, then disabling it. *)
Definition enable_then_disable {num : Type} `{!Number num} (env env' : Env)
    (s : FinancialState num) : FinancialState num :=
  after (toggleTaxFund env' false) (after (toggleTaxFund env true) s).

(** An entry with its percentage brought to the scale on which the total
    [T] is 100. *)
Definition normalised {num : Type} `{!Number num} (T : num)
    (d : ProfitDistribution num) : ProfitDistribution num :=
  {| fundId := fundId d; percentage := (percentage d * of_Z 100 / T)%js |}.

(** The entries that a toggle rescales: all of them when enabling, those
    of the other funds when disabling.  Their total is the base of the
    rescaling. *)
Definition rescaled_entries {num : Type} (enabled : bool)
    (ds : list (ProfitDistribution num)) : list (ProfitDistribution num) :=
  if enabled then ds
  else List.filter (fun d => negb (bool_decide (fundId d = "taxes"))) ds.

(** The default state after an income of 0.05 without cost. *)
Definition nickel {num : Type} `{!Number num} : FinancialState num :=
  after (addTransaction env1 (income (decimal 5 100) (of_Z 0))) (initial 0).

(** Some EXPENSE transaction names the fund as its source. *)
Definition referenced_by_expense {num : Type} (id : FundId)
    (ts : list (Transaction num)) : Prop :=
  exists t : Transaction num,
    t ∈ ts /\ type t = EXPENSE /\ sourceFundId t = Some id.

(** No percentage of the distribution is [NaN]. *)
Definition finite_percentages (ds : list (ProfitDistribution exact)) : Prop :=
  Forall (fun d => percentage d <> NaN) ds.

(** The balance of a fund is its lifetime inflow less its lifetime outflow. *)
Definition balanced {num : Type} `{!Number num} (fund : Fund num) : Prop :=
  currentBalance fund = (lifetimeInflow fund - lifetimeOutflow fund)%js.

(** Two incomes and two expenses in binary64, from the initial state with
    its default distribution, which gives the fund [personal] 25%: incomes
    of 0.40 and 0.80 without cost, worth 0.10 and 0.20 to the fund, then
    expenses of 0.10 and 0.20 from it. *)
Definition drift1 : FinancialState float :=
  after (addTransaction env1 (income (decimal 4 10) (of_Z 0))) (initial 0).
Definition drift2 : FinancialState float :=
  after (addTransaction env1 (income (decimal 8 10) (of_Z 0))) drift1.
Definition drift3 : FinancialState float :=
  after (addTransaction env1 (expense (decimal 1 10) "personal")) drift2.
Definition drift4 : FinancialState float :=
  after (addTransaction env1 (expense (decimal 2 10) "personal")) drift3.

(** Every recorded EXPENSE names a fund of the state. *)
Definition sources_exist {num : Type} (s : FinancialState num) : Prop :=
  forall t : Transaction num,
    t ∈ transactions s -> type t = EXPENSE ->
    exists id fund, sourceFundId t = Some id /\ funds s !! id = Some fund.

(** The totals after an allocation has been credited to a fund. *)
Definition add_allocation {num : Type} `{!Number num} (acc : Totals num) (a : num)
    : Totals num :=
  {| balance := (balance acc + a)%js;
     inflow := (inflow acc + a)%js;
     outflow := outflow acc |}.

(** A ledger with three funds and no transactions, in which the profit goes
    to the first two. *)
Definition three_funds {num : Type} `{!Number num} : FinancialState num :=
  state_with
    {[ "A" := fund_with "A" (of_Z 10) (of_Z 10) (of_Z 0);
       "B" := fund_with "B" (of_Z 0) (of_Z 0) (of_Z 0);
       "C" := fund_with "C" (of_Z 0) (of_Z 0) (of_Z 0) ]}
    [] [share "A" 60; share "B" 40].

(** The default state after an income of 100 without cost, and after an
    expense of 10 from the fund [personal] that follows it. *)
Definition earned {num : Type} `{!Number num} : FinancialState num :=
  after (addTransaction env1 (income (of_Z 100) (of_Z 0))) (initial 0).

Definition spent {num : Type} `{!Number num} : FinancialState num :=
  after (addTransaction env1 (expense (of_Z 10) "personal")) earned.

(** A store with one budget. *)
Definition one_budget {num : Type} `{!Number num} : FinanceStore num :=
  {| ledger := initial 0;
     budgets :=
       [ {| budget_id := "b0"; budget_name := "Laptop";
            targetAmount := of_Z 1200; currentAmount := of_Z 0;
            status := ACTIVE;
            allocations :=
              [ {| allocation_fundId := "personal";
                   allocation_percentage := of_Z 100 |} ];
            budget_createdAt := 0; budget_updatedAt := 0 |} ] |}.

(** * Properties *)

(** ** Properties that hold in every arithmetic *)

Section Generic.

Context {num : Type} `{!Number num}.

Local Open Scope js_scope.

(** A rejection always carries its reason. *)
Lemma validateTransaction_reason today (td : TransactionData num) fs v :
  validateTransaction today td fs = Ok v ->
  isValid v = false ->
  exists m, error v = Some m.
Proof.
  unfold validateTransaction. intros Hv Hinv.
  repeat (match type of Hv with
          | (if ?c then _ else _) = _ => destruct c
          | match ?x with _ => _ end = _ => destruct x eqn:?
          | result_bind ?r _ = _ => destruct r; simpl in Hv
          end; try discriminate);
    injection Hv as <-; simpl in *; try discriminate; eauto.
Qed.

(** The rejections, in the order of the checks: an amount that is not
    positive, a date in the future, an income without a cost or with a
    cost that is negative or above the amount, an expense without a source
    fund or with one that does not exist or holds less than the amount. *)
Lemma validateTransaction_rejections today (td : TransactionData num) fs :
  ((amount td <=? of_Z 0) = true ->
   validateTransaction today td fs = Ok (invalid (Msg "Amount must be positive"))) /\
  ((amount td <=? of_Z 0) = false ->
   (today <? date td)%Z = true ->
   validateTransaction today td fs
   = Ok (invalid (Msg "Transaction date cannot be in the future"))) /\
  ((amount td <=? of_Z 0) = false ->
   (today <? date td)%Z = false ->
   (type td = INCOME ->
    (costOfProduction td = None ->
     validateTransaction today td fs
     = Ok (invalid (Msg "Cost of production is required for income"))) /\
    (forall cost, costOfProduction td = Some cost ->
       ((cost <? of_Z 0) = true ->
        validateTransaction today td fs
        = Ok (invalid (Msg "Cost of production cannot be negative"))) /\
       ((cost <? of_Z 0) = false -> (cost >? amount td) = true ->
        validateTransaction today td fs
        = Ok (invalid (Msg "Cost of production cannot exceed income"))))) /\
   (type td = EXPENSE ->
    (truthy (sourceFundId td) = None ->
     validateTransaction today td fs
     = Ok (invalid (Msg "Source fund is required for expenses"))) /\
    (forall source, truthy (sourceFundId td) = Some source ->
       (fs !! source = None ->
        validateTransaction today td fs
        = Ok (invalid (Msg "Selected fund does not exist"))) /\
       (forall fund, fs !! source = Some fund ->
          (currentBalance fund <? amount td) = true ->
          validateTransaction today td fs
          = Ok (invalid (Msg "Insufficient funds in selected account")))))).
Proof.
  unfold validateTransaction. split; [intros ->; reflexivity|].
  split; [intros -> ->; reflexivity|].
  intros -> ->. split; intros ->.
  - split; [intros ->; reflexivity|].
    intros cost ->. split; [intros ->; reflexivity|].
    intros -> ->. reflexivity.
  - split; [intros ->; reflexivity|].
    intros source ->. split; [intros ->; reflexivity|].
    intros fund -> ->. reflexivity.
Qed.

(** Whatever [addTransaction] raises, it raises before it sets anything. *)
Lemma addTransaction_throw_unchanged env (td : TransactionData num) s e s' :
  addTransaction env td s = (Throw e, s') -> s' = s.
Proof.
  unfold addTransaction, store_bind, get, call, throw, set. simpl.
  destruct (validateTransaction _ _ _) as [v|]; [|congruence].
  destruct (negb (isValid v)); [congruence|].
  destruct (type td).
  - destruct (calculateProfit _ _); simpl; [|congruence].
    destruct (applyTransactionToFunds _ _ _ _); congruence.
  - simpl. destruct (applyTransactionToFunds _ _ _ _); congruence.
Qed.

(** C3.  A transaction that [validateTransaction] rejects makes
    [addTransaction] raise the reason of the rejection and leave the state,
    and so the funds and the transaction list, as they were. *)
Theorem addTransaction_rejected_mutates_nothing
    env (td : TransactionData num) (s : FinancialState num) v :
  validateTransaction (now env) td (funds s) = Ok v ->
  isValid v = false ->
  exists m,
    error v = Some m /\
    addTransaction env td s = (Throw (Error m), s) /\
    funds (after (addTransaction env td) s) = funds s /\
    transactions (after (addTransaction env td) s) = transactions s.
Proof.
  intros Hv Hinv.
  destruct (validateTransaction_reason _ _ _ _ Hv Hinv) as [m Hm].
  exists m. split; [exact Hm|].
  assert (Hrun : addTransaction env td s = (Throw (Error m), s)).
  { unfold addTransaction, store_bind, get, call, throw. simpl.
    rewrite Hv, Hinv, Hm. reflexivity. }
  unfold after. rewrite Hrun. auto.
Qed.

(** A valid expense names a fund that exists. *)
Lemma validateTransaction_expense today (td : TransactionData num) fs v :
  type td = EXPENSE ->
  validateTransaction today td fs = Ok v ->
  isValid v = true ->
  exists id fund,
    sourceFundId td = Some id /\ truthy (sourceFundId td) = Some id /\
    fs !! id = Some fund /\
    (currentBalance fund <? amount td) = false /\
    (amount td <=? of_Z 0) = false.
Proof.
  unfold validateTransaction. intros Hty Hv Hok. rewrite Hty in Hv.
  destruct (amount td <=? of_Z 0) eqn:Hpos; cbv iota in Hv;
    [injection Hv as <-; discriminate|].
  destruct (today <? date td)%Z; cbv iota in Hv;
    [injection Hv as <-; discriminate|].
  destruct (truthy (sourceFundId td)) as [id|] eqn:Hf; cbv iota in Hv;
    [|injection Hv as <-; discriminate].
  destruct (fs !! id) as [fund|] eqn:Hfund; cbv iota in Hv;
    [|injection Hv as <-; discriminate].
  destruct (currentBalance fund <? amount td) eqn:Hbal; cbv iota in Hv;
    [injection Hv as <-; discriminate|].
  exists id, fund. repeat split; auto.
  revert Hf. unfold truthy. destruct (sourceFundId td) as [x|]; [|discriminate].
  destruct (bool_decide _); congruence.
Qed.


(** The [forEach] of the INCOME branch, fund by fund: a fund with an entry
    in the allocation is credited with it, any other fund is kept, and no
    fund is created. *)
Lemma fold_credit_lookup today (l : list (FundId * num)) :
  NoDup l.*1 ->
  forall (fs : gmap FundId (Fund num)) id,
    fold_left (credit today) l fs !! id =
    (fun fund =>
       match (list_to_map l : gmap FundId num) !! id with
       | Some a => credited today fund a
       | None => fund
       end) <$> fs !! id.
Proof.
  induction l as [|[k a] l IH]; intros Hnd fs id.
  - simpl. rewrite lookup_empty. destruct (fs !! id); reflexivity.
  - apply NoDup_cons in Hnd as [Hk Hnd]. simpl fold_left.
    rewrite (IH Hnd). simpl list_to_map. unfold credit.
    destruct (decide (k = id)) as [->|Hne].
    + rewrite lookup_insert_eq.
      rewrite (not_elem_of_list_to_map_1 _ _ Hk).
      destruct (fs !! id) as [fund|] eqn:Hfund.
      * rewrite lookup_insert_eq. reflexivity.
      * rewrite Hfund. reflexivity.
    + rewrite (lookup_insert_ne _ k id) by exact Hne.
      destruct (fs !! k) as [fund|] eqn:Hfund.
      * rewrite lookup_insert_ne by exact Hne. reflexivity.
      * reflexivity.
Qed.

Lemma credit_allocation_lookup today (m : gmap FundId num)
    (fs : gmap FundId (Fund num)) id :
  fold_left (credit today) (map_to_list m) fs !! id =
  (fun fund =>
     match m !! id with
     | Some a => credited today fund a
     | None => fund
     end) <$> fs !! id.
Proof.
  rewrite fold_credit_lookup by apply NoDup_fst_map_to_list.
  rewrite list_to_map_to_list. reflexivity.
Qed.

(** Applying an INCOME transaction, fund by fund. *)
Lemma applyTransactionToFunds_income today fs (tx : Transaction num)
    (ds : list (ProfitDistribution num)) p m :
  type tx = INCOME ->
  calculateProfit (amount tx) (assert_number (costOfProduction tx)) = Ok p ->
  distributeProfit p ds = Ok m ->
  exists fs',
    applyTransactionToFunds today fs tx ds = Ok fs' /\
    forall id,
      fs' !! id =
      (fun fund =>
         match m !! id with
         | Some a => credited today fund a
         | None => fund
         end) <$> fs !! id.
Proof.
  intros Hty Hp Hm. eexists. split.
  - unfold applyTransactionToFunds. rewrite Hty, Hp. simpl. rewrite Hm.
    simpl. reflexivity.
  - intros id. apply credit_allocation_lookup.
Qed.

(** What [deleteFund] does to a fund that exists, check by check. *)
Lemma deleteFund_existing env id (s : FinancialState num) fund :
  funds s !! id = Some fund ->
  deleteFund env id s =
  if currentBalance fund >? of_Z 0
  then (Throw (Error (Msg "Cannot delete fund with remaining balance")), s)
  else if existsb (references id) (transactions s)
  then (Throw (Error (Msg "Cannot delete fund referenced in transactions")), s)
  else
    (Ok tt,
     {| funds := delete id (funds s);
        transactions := transactions s;
        profitDistribution :=
          List.filter (fun d => negb (bool_decide (fundId d = id)))
            (profitDistribution s);
        taxEnabled := taxEnabled s;
        lastUpdated := now env |}).
Proof.
  intros Hfund. unfold deleteFund, store_bind, get, throw, set. simpl.
  rewrite Hfund.
  destruct (currentBalance fund >? of_Z 0); [reflexivity|].
  destruct (existsb _ _); reflexivity.
Qed.

(** [toggleTaxFund] has no failing path: it always sets the flag and
    replaces the distribution. *)
Lemma toggleTaxFund_runs env enabled (s : FinancialState num) :
  toggleTaxFund env enabled s =
  (Ok tt,
   {| funds := funds s;
      transactions := transactions s;
      profitDistribution :=
        if enabled
        then map (rescale (total_percentage (profitDistribution s)) (of_Z 95))
               (profitDistribution s)
             ++ [{| fundId := "taxes"; percentage := of_Z 5 |}]
        else
          let rest :=
            List.filter (fun d => negb (bool_decide (fundId d = "taxes")))
              (profitDistribution s) in
          map (rescale (total_percentage rest) (of_Z 100)) rest;
      taxEnabled := enabled;
      lastUpdated := now env |}).
Proof. destruct enabled; reflexivity. Qed.

(** What a completed [addTransaction] has done: the request was valid, and
    the new state holds the funds that [applyTransactionToFunds] returned
    for the transaction built from it. *)
Lemma addTransaction_ok env (td : TransactionData num) s s' :
  addTransaction env td s = (Ok tt, s') ->
  exists v (tx : Transaction num) fs',
    validateTransaction (now env) td (funds s) = Ok v /\
    isValid v = true /\
    type tx = type td /\ amount tx = amount td /\
    costOfProduction tx = costOfProduction td /\
    sourceFundId tx = sourceFundId td /\
    applyTransactionToFunds (now env) (funds s) tx (profitDistribution s)
      = Ok fs' /\
    s' = {| funds := fs';
            transactions := transactions s ++ [tx];
            profitDistribution := profitDistribution s;
            taxEnabled := taxEnabled s;
            lastUpdated := now env |}.
Proof.
  unfold addTransaction, store_bind, get, call, throw, set. simpl.
  destruct (validateTransaction _ _ _) as [v|] eqn:Hv; [|congruence].
  destruct (isValid v) eqn:Hok; simpl; [|congruence].
  destruct (type td) eqn:Hty.
  - destruct (calculateProfit _ _) as [p|]; simpl; [|congruence].
    destruct (applyTransactionToFunds _ _ _ _) as [fs'|] eqn:Happly;
      [|congruence].
    intros [= <-]. eexists v, _, fs'. repeat split; eauto.
  - simpl.
    destruct (applyTransactionToFunds _ _ _ _) as [fs'|] eqn:Happly;
      [|congruence].
    intros [= <-]. eexists v, _, fs'. repeat split; eauto.
Qed.

(** A property of single funds that crediting and debiting keep is kept by
    [applyTransactionToFunds]. *)
Lemma applyTransactionToFunds_preserves (P : Fund num -> Prop)
    today fs (tx : Transaction num) ds fs' :
  (forall fund a, P fund -> P (credited today fund a)) ->
  (forall fund a, P fund -> P (debit today fund a)) ->
  (forall id fund, fs !! id = Some fund -> P fund) ->
  applyTransactionToFunds today fs tx ds = Ok fs' ->
  forall id fund, fs' !! id = Some fund -> P fund.
Proof.
  intros Hcredit Hdebit Hfs. unfold applyTransactionToFunds.
  destruct (type tx).
  - destruct (calculateProfit _ _) as [p|]; simpl; [|discriminate].
    destruct (distributeProfit p ds) as [m|]; simpl; [|discriminate].
    intros [= <-] id fund. rewrite credit_allocation_lookup.
    destruct (fs !! id) as [fund0|] eqn:Hid; simpl; [|discriminate].
    intros [= <-]. destruct (m !! id); eauto.
  - destruct (truthy _) as [source|]; [|intros [= <-]; exact Hfs].
    destruct (fs !! source) as [fund0|] eqn:Hsource;
      [|intros [= <-]; exact Hfs].
    intros [= <-] id fund.
    destruct (decide (source = id)) as [->|Hne].
    + rewrite lookup_insert_eq. intros [= <-]. eauto.
    + rewrite lookup_insert_ne by exact Hne. apply Hfs.
Qed.

(** Such a property, when it also holds of a fund whose balance and
    counters are all zero, is kept by every action of the store. *)
Lemma step_preserves (P : Fund num -> Prop) (s s' : FinancialState num) :
  (forall today fund a, P fund -> P (credited today fund a)) ->
  (forall today fund a, P fund -> P (debit today fund a)) ->
  (forall fund,
     currentBalance fund = of_Z 0 -> lifetimeInflow fund = of_Z 0 ->
     lifetimeOutflow fund = of_Z 0 -> P fund) ->
  step s s' ->
  (forall id fund, funds s !! id = Some fund -> P fund) ->
  forall id fund, funds s' !! id = Some fund -> P fund.
Proof.
  intros Hcredit Hdebit Hzero Hstep Hs.
  destruct Hstep as [env td Hrun|env fd _ Hrun|env k Hrun|env ds Hrun|env b Hrun].
  - apply addTransaction_ok in Hrun
      as (v & tx & fs' & _ & _ & _ & _ & _ & _ & Happly & ->).
    simpl. eapply applyTransactionToFunds_preserves; eauto.
  - injection Hrun as <-. simpl. intros id fund.
    destruct (decide (uuid env = id)) as [->|Hne].
    + rewrite lookup_insert_eq. intros [= <-]. apply Hzero; reflexivity.
    + rewrite lookup_insert_ne by exact Hne. apply Hs.
  - destruct (funds s !! k) as [fund0|] eqn:Hk.
    + rewrite (deleteFund_existing _ _ _ _ Hk) in Hrun.
      destruct (currentBalance fund0 >? of_Z 0); [discriminate|].
      destruct (existsb _ _); [discriminate|].
      injection Hrun as <-. simpl. intros id fund Hid.
      apply lookup_delete_Some in Hid as [_ Hid]. eauto.
    + unfold deleteFund, store_bind, get, throw in Hrun. simpl in Hrun.
      rewrite Hk in Hrun. discriminate.
  - injection Hrun as <-. exact Hs.
  - rewrite toggleTaxFund_runs in Hrun. injection Hrun as <-. exact Hs.
Qed.

(** Every fund of the initial state has a zero balance and zero counters. *)
Lemma DEFAULT_FUNDS_zero boot id (fund : Fund num) :
  DEFAULT_FUNDS boot !! id = Some fund ->
  currentBalance fund = of_Z 0 /\ lifetimeInflow fund = of_Z 0 /\
  lifetimeOutflow fund = of_Z 0.
Proof.
  intros Hid. apply elem_of_list_to_map_2 in Hid.
  repeat (apply elem_of_cons in Hid as [[= -> ->]|Hid];
          [repeat split; reflexivity|]).
  apply elem_of_nil in Hid. contradiction.
Qed.

Lemma reachable_preserves (P : Fund num -> Prop) (s : FinancialState num) :
  (forall today fund a, P fund -> P (credited today fund a)) ->
  (forall today fund a, P fund -> P (debit today fund a)) ->
  (forall fund,
     currentBalance fund = of_Z 0 -> lifetimeInflow fund = of_Z 0 ->
     lifetimeOutflow fund = of_Z 0 -> P fund) ->
  reachable s ->
  forall id fund, funds s !! id = Some fund -> P fund.
Proof.
  intros Hcredit Hdebit Hzero Hreach.
  induction Hreach as [boot|s s' _ IH Hstep].
  - intros id fund Hid. apply DEFAULT_FUNDS_zero in Hid as (? & ? & ?).
    auto.
  - eapply step_preserves; eauto.
Qed.

(** What one action does to a fund that is there before and after it: it
    leaves it alone, credits it with its entry of the allocation of a
    profit, or debits it by an amount that passed validation. *)
Lemma step_fund (s s' : FinancialState num) id fund fund' :
  step s s' ->
  funds s !! id = Some fund ->
  funds s' !! id = Some fund' ->
  fund' = fund \/
  (exists today p m a,
     distributeProfit p (profitDistribution s) = Ok m /\
     m !! id = Some a /\ fund' = credited today fund a) \/
  (exists today a, (a <=? of_Z 0) = false /\ fund' = debit today fund a).
Proof.
  intros Hstep Hid Hid'.
  destruct Hstep as [env td Hrun|env fd Hfresh Hrun|env k Hrun|env ds Hrun|env b Hrun].
  - apply addTransaction_ok in Hrun
      as (v & tx & fs' & Hv & Hok & Hty & Hamount & _ & Hsource & Happly & ->).
    simpl in Hid'. unfold applyTransactionToFunds in Happly.
    destruct (type tx) eqn:Htx.
    + destruct (calculateProfit _ _) as [p|]; simpl in Happly; [|discriminate].
      destruct (distributeProfit p _) as [m|] eqn:Hm; simpl in Happly;
        [|discriminate].
      injection Happly as <-.
      rewrite credit_allocation_lookup, Hid in Hid'. simpl in Hid'.
      injection Hid' as <-.
      destruct (m !! id) as [a|] eqn:Ha; [|left; reflexivity].
      right. left. exists (now env), p, m, a. auto.
    + symmetry in Hty.
      destruct (validateTransaction_expense _ _ _ _ Hty Hv Hok)
        as (source & fund0 & _ & Htruthy & Hfund0 & _ & Hpos).
      rewrite Hsource, Htruthy, Hfund0 in Happly. injection Happly as <-.
      destruct (decide (source = id)) as [->|Hne].
      * rewrite lookup_insert_eq in Hid'. injection Hid' as <-.
        right. right. exists (now env), (amount tx).
        rewrite Hamount. split; [exact Hpos|congruence].
      * rewrite lookup_insert_ne in Hid' by exact Hne. left. congruence.
  - injection Hrun as <-. simpl in Hid'.
    rewrite lookup_insert_ne in Hid' by congruence. left. congruence.
  - left. destruct (funds s !! k) as [fund0|] eqn:Hk.
    + rewrite (deleteFund_existing _ _ _ _ Hk) in Hrun.
      destruct (currentBalance fund0 >? of_Z 0); [discriminate|].
      destruct (existsb _ _); [discriminate|].
      injection Hrun as <-. simpl in Hid'.
      apply lookup_delete_Some in Hid' as [_ Hid']. congruence.
    + unfold deleteFund, store_bind, get, throw in Hrun. simpl in Hrun.
      rewrite Hk in Hrun. discriminate.
  - left. injection Hrun as <-. simpl in Hid'. congruence.
  - left. rewrite toggleTaxFund_runs in Hrun. injection Hrun as <-.
    simpl in Hid'. congruence.
Qed.

(** *** The allocation, entry by entry *)

(** The loop with its index and the loop without it are one loop. *)
Lemma distribute_for_loop profit (ds : list (ProfitDistribution num)) :
  forall i result remaining,
    distribute_for profit (i + length ds) i ds result remaining =
    distribute_loop profit ds result remaining.
Proof.
  induction ds as [|d rest IH]; intros i result remaining; [reflexivity|].
  destruct rest as [|d' rest].
  - cbn [distribute_for distribute_loop length].
    replace (i =? i + 1 - 1)%nat with true
      by (symmetry; apply Nat.eqb_eq; lia).
    reflexivity.
  - cbn [distribute_for distribute_loop].
    replace (i =? i + length (d :: d' :: rest) - 1)%nat with false
      by (symmetry; apply Nat.eqb_neq; cbn [length]; lia).
    replace (i + length (d :: d' :: rest))%nat
      with (S i + length (d' :: rest))%nat by (cbn [length]; lia).
    apply IH.
Qed.

Lemma distributeProfit_loop profit (ds : list (ProfitDistribution num)) :
  distributeProfit profit ds =
  if negb (isValid (validateProfitDistribution ds))
  then Throw (Error (default (Msg "Invalid profit distribution")
                       (error (validateProfitDistribution ds))))
  else Ok (distribute_loop profit ds ∅ profit).
Proof.
  unfold distributeProfit. cbv zeta.
  rewrite <- (distribute_for_loop profit ds 0). reflexivity.
Qed.

Lemma distribute_loop_cons profit (d d' : ProfitDistribution num) rest result remaining :
  distribute_loop profit (d :: d' :: rest) result remaining =
  distribute_loop profit (d' :: rest)
    (<[fundId d := share_of profit d]> result)
    (remaining - share_of profit d).
Proof. reflexivity. Qed.

Lemma distribute_loop_single profit (d : ProfitDistribution num) result remaining :
  distribute_loop profit [d] result remaining =
  <[fundId d := round2 remaining]> result.
Proof. reflexivity. Qed.

Lemma app_last_cons {A : Type} (init : list A) (l : A) :
  exists d rest, init ++ [l] = d :: rest.
Proof. destruct init; simpl; eauto. Qed.

(** The loop writes the funds of its entries only. *)
Lemma distribute_loop_other profit (ds : list (ProfitDistribution num)) :
  forall result remaining k,
    k ∉ fundId <$> ds ->
    distribute_loop profit ds result remaining !! k = result !! k.
Proof.
  induction ds as [|d ds IH]; intros result remaining k Hk; [reflexivity|].
  rewrite fmap_cons in Hk. apply not_elem_of_cons in Hk as [Hne Hk].
  destruct ds as [|d' rest].
  - simpl. apply lookup_insert_ne. congruence.
  - rewrite distribute_loop_cons, IH by exact Hk.
    apply lookup_insert_ne. congruence.
Qed.

(** Every entry but the last receives its share ... *)
Lemma distribute_loop_init profit (init : list (ProfitDistribution num)) l :
  forall result remaining d,
    NoDup (fundId <$> init ++ [l]) ->
    d ∈ init ->
    distribute_loop profit (init ++ [l]) result remaining !! fundId d =
    Some (share_of profit d).
Proof.
  induction init as [|d0 init IH]; intros result remaining d Hnd Hd.
  - apply elem_of_nil in Hd. contradiction.
  - simpl app in *. rewrite fmap_cons in Hnd.
    apply NoDup_cons in Hnd as [Hd0 Hnd].
    destruct (app_last_cons init l) as (d' & rest & Heq).
    rewrite Heq, distribute_loop_cons, <- Heq.
    apply elem_of_cons in Hd as [->|Hd].
    + rewrite distribute_loop_other by exact Hd0. apply lookup_insert_eq.
    + apply IH; assumption.
Qed.

(** ... and the last one the rounded remainder. *)
Lemma distribute_loop_last profit (init : list (ProfitDistribution num)) l :
  forall result remaining,
    distribute_loop profit (init ++ [l]) result remaining !! fundId l =
    Some (round2 (fold_left (fun r d => r - share_of profit d) init remaining)).
Proof.
  induction init as [|d0 init IH]; intros result remaining.
  - simpl. apply lookup_insert_eq.
  - simpl app. destruct (app_last_cons init l) as (d' & rest & Heq).
    rewrite Heq, distribute_loop_cons, <- Heq. apply IH.
Qed.

(** An action that returns leaves the state [after] computes. *)
Lemma after_ok {A : Type} (m : Store num A) (s : FinancialState num) a :
  (m s).1 = Ok a -> m s = (Ok a, after m s).
Proof. unfold after. destruct (m s) as [r s']. simpl. intros ->. reflexivity. Qed.

End Generic.



(** ** The scenarios of the specification, in binary64 *)

(** An expense of 50 against a balance of 30 is refused and changes
    nothing. *)
Lemma addTransaction_rejected_mutates_nothing_witness :
  let s : FinancialState float :=
    state_with {[ "A" := fund_with "A" (of_Z 30) (of_Z 30) (of_Z 0) ]} [] [] in
  addTransaction env1 (expense (of_Z 50) "A") s =
  (Throw (Error (Msg "Insufficient funds in selected account")), s).
Proof.
  cbv zeta.
  destruct (addTransaction_rejected_mutates_nothing env1
              (expense (of_Z 50) "A")
              (state_with
                 {[ "A" := fund_with "A" (of_Z 30 : float) (of_Z 30) (of_Z 0) ]}
                 [] [])
              (invalid (Msg "Insufficient funds in selected account")))
    as (m & Hm & Hrun & _).
  - vm_compute. reflexivity.
  - reflexivity.
  - injection Hm as <-. exact Hrun.
Defined.


(** Enabling the tax fund on an even split gives 47.5, 47.5 and 5. *)
Example enable_on_even_split :
  profitDistribution
    (after (toggleTaxFund env1 true)
       (state_with ∅ [] [share "A" 50; share "B" 50] : FinancialState float))
  = [ {| fundId := "A"; percentage := decimal 475 10 |};
      {| fundId := "B"; percentage := decimal 475 10 |};
      share "taxes" 5 ].
Proof. vm_compute. reflexivity. Qed.

(** [Math.round] in binary64: a tie goes up, and a result of zero keeps the
    sign of the argument. *)
Example round_ties :
  Math_round (decimal 25 10 : float) = of_Z 3 /\
  Math_round (decimal (-25) 10 : float) = of_Z (-2) /\
  Math_round (decimal (-2) 10 : float) = PrimFloat.neg_zero /\
  Math_round (decimal 4 10 : float) = of_Z 0.
Proof. repeat split; reflexivity. Qed.

(** The literals of the source are the binary64 numbers they denote. *)
Example literal_one_cent : (decimal 1 100 : float) = 0x1.47ae147ae147bp-7%float.
Proof. reflexivity. Qed.

Example literal_tenth_plus_fifth :
  (decimal 1 10 + decimal 2 10 : float)%js = 0x1.3333333333334p-2%float.
Proof. reflexivity. Qed.

(** ** Exact arithmetic *)

Ltac exact_simpl :=
  cbn [of_Z nan num_add num_sub num_mul num_div num_lt num_le Math_abs
       Math_round exact_Number exact_lift2 exact_div exact_lt exact_le
       exact_abs exact_round] in *.

(** Closes an identity of the ring of rationals lifted to [exact]: [NaN]
    absorbs on both sides, and the finite case is left to [ring]. *)
Ltac exact_ring :=
  repeat match goal with x : exact |- _ => destruct x end;
  exact_simpl; try reflexivity; f_equal; ring.

Lemma exact_add_sub_swap (i o a : exact) :
  ((i - o) + a = (i + a) - o)%js.
Proof. exact_ring. Qed.

Lemma exact_sub_sub_add (i o a : exact) :
  ((i - o) - a = i - (o + a))%js.
Proof. exact_ring. Qed.

Lemma exact_add_swap (y a b : exact) :
  ((y + a) + b = (y + b) + a)%js.
Proof. exact_ring. Qed.

Lemma exact_zero_balanced : (of_Z 0 = of_Z 0 - of_Z 0 :> exact)%js.
Proof. apply (f_equal Fin). change (Qc_of_Z 0) with 0%Qc. ring. Qed.

Lemma Qc_of_Z_sub a b : Qc_of_Z (a - b) = (Qc_of_Z a - Qc_of_Z b)%Qc.
Proof.
  unfold Qc_of_Z, Qcminus, Qcplus, Qcopp. apply Q2Qc_eq_iff. simpl this.
  rewrite !Qred_correct. unfold Z.sub. rewrite inject_Z_plus, inject_Z_opp.
  reflexivity.
Qed.

Lemma Qc_of_Z_100_nonzero : Qc_of_Z 100 <> 0%Qc.
Proof.
  unfold Qc_of_Z. intros H. apply Q2Qc_eq_iff in H. discriminate H.
Qed.

Lemma Qfloor_half z : Qfloor (this (Qc_of_Z z) + (1 # 2)) = z.
Proof.
  unfold Qc_of_Z. simpl this. rewrite Qred_correct.
  unfold Qfloor, Qplus, inject_Z. simpl.
  change (Z.pos (1 * 2)) with 2. change (1 * 1) with 1.
  rewrite Z.add_comm, Z.div_add by lia. reflexivity.
Qed.

Lemma decimal_exact z : (decimal z 100 : exact) = Fin (Qc_of_Z z / Qc_of_Z 100).
Proof.
  unfold decimal. exact_simpl.
  destruct (Qc_eq_dec _ _) as [H|_]; [destruct (Qc_of_Z_100_nonzero H)|].
  reflexivity.
Qed.

Lemma round2_Fin q :
  exists z, round2 (Fin q) = decimal z 100.
Proof.
  eexists. unfold round2, decimal. exact_simpl. reflexivity.
Qed.

Lemma round2_cents z : round2 (decimal z 100 : exact) = decimal z 100.
Proof.
  rewrite decimal_exact. unfold round2. exact_simpl.
  destruct (Qc_eq_dec _ _) as [H|_]; [destruct (Qc_of_Z_100_nonzero H)|].
  f_equal. f_equal.
  replace (Qc_of_Z z / Qc_of_Z 100 * Qc_of_Z 100)%Qc with (Qc_of_Z z)
    by (field; exact Qc_of_Z_100_nonzero).
  rewrite Qfloor_half. reflexivity.
Qed.

Lemma cents_sub a b :
  (decimal a 100 - decimal b 100 = decimal (a - b) 100 :> exact)%js.
Proof.
  rewrite !decimal_exact. exact_simpl. f_equal. rewrite Qc_of_Z_sub.
  field. exact Qc_of_Z_100_nonzero.
Qed.

(** *** Order *)

Lemma exact_lt_spec (x y : Qc) :
  (Fin x <? Fin y)%js = true <-> (x < y)%Qc.
Proof.
  exact_simpl. rewrite Qclt_alt. destruct (x ?= y)%Qc; split; congruence.
Qed.

Lemma exact_le_false (x y : Qc) :
  (Fin x <=? Fin y)%js = false <-> (y < x)%Qc.
Proof.
  exact_simpl. split.
  - intros H. apply (proj2 (Qcgt_alt x y)).
    destruct (x ?= y)%Qc; congruence.
  - intros H. apply (proj1 (Qcgt_alt x y)) in H. rewrite H. reflexivity.
Qed.

Lemma exact_lt_irrefl (x : exact) : (x <? x)%js = false.
Proof.
  destruct x as [q|]; [|reflexivity].
  destruct (Fin q <? Fin q)%js eqn:H; [|reflexivity].
  apply exact_lt_spec in H. destruct (Qclt_not_eq _ _ H). reflexivity.
Qed.

Lemma Qc_of_Z_0 : Qc_of_Z 0 = 0%Qc.
Proof. reflexivity. Qed.

(** A counter that went down had a negative amount added to it. *)
Lemma exact_add_lt_negative (i a : exact) :
  (i + a <? i)%js = true -> (a <? of_Z 0)%js = true.
Proof.
  destruct i as [i|], a as [a|]; try discriminate.
  change (Fin i + Fin a)%js with (Fin (i + a)).
  change (of_Z 0 : exact) with (Fin (Qc_of_Z 0)).
  rewrite !exact_lt_spec, Qc_of_Z_0. intros H.
  apply Qclt_minus_iff in H. apply Qclt_minus_iff.
  replace (0 + - a)%Qc with (i + - (i + a))%Qc by ring. exact H.
Qed.

(** Adding an amount that is not [<= 0] does not take a counter down. *)
Lemma exact_add_positive_not_lt (o a : exact) :
  (a <=? of_Z 0)%js = false -> (o + a <? o)%js = false.
Proof.
  intros Ha. destruct (o + a <? o)%js eqn:H; [|reflexivity].
  apply exact_add_lt_negative in H.
  destruct a as [a|]; [|discriminate].
  change (of_Z 0 : exact) with (Fin (Qc_of_Z 0)) in *.
  apply exact_le_false in Ha. apply exact_lt_spec in H.
  destruct (Qclt_not_le _ _ H). apply Qclt_le_weak, Ha.
Qed.


Lemma credited_balanced today (fund : Fund exact) a :
  balanced fund -> balanced (credited today fund a).
Proof.
  unfold balanced. simpl. intros ->. apply exact_add_sub_swap.
Qed.

Lemma debit_balanced today (fund : Fund exact) a :
  balanced fund -> balanced (debit today fund a).
Proof.
  unfold balanced. simpl. intros ->. apply exact_sub_sub_add.
Qed.

Lemma zero_balanced (fund : Fund exact) :
  currentBalance fund = of_Z 0 -> lifetimeInflow fund = of_Z 0 ->
  lifetimeOutflow fund = of_Z 0 -> balanced fund.
Proof.
  unfold balanced. intros -> -> ->. apply exact_zero_balanced.
Qed.



(** *** Conservation of the profit *)

Lemma exact_div_100 q : (Fin q / of_Z 100)%js = Fin (q / Qc_of_Z 100).
Proof.
  exact_simpl.
  destruct (Qc_eq_dec _ _) as [H|_]; [destruct (Qc_of_Z_100_nonzero H)|].
  reflexivity.
Qed.

(** The share of a finite profit at a finite percentage is a whole number
    of cents. *)
Lemma share_of_cents (profit : exact) (d : ProfitDistribution exact) :
  profit <> NaN ->
  percentage d <> NaN ->
  exists k, share_of profit d = decimal k 100.
Proof.
  intros Hp Hd. unfold share_of.
  destruct profit as [p|]; [|congruence].
  destruct (percentage d) as [q|]; [|congruence].
  change (Fin p * Fin q)%js with (Fin (p * q)). rewrite exact_div_100.
  apply round2_Fin.
Qed.

Lemma decimal_finite z : (decimal z 100 : exact) <> NaN.
Proof. rewrite decimal_exact. discriminate. Qed.

Lemma exact_add_sub_cancel (t a : exact) q :
  ((t + Fin q) + (a - Fin q) = t + a)%js.
Proof. exact_ring. Qed.

Lemma exact_add_zero z : (of_Z 0 + decimal z 100 = decimal z 100 :> exact)%js.
Proof.
  rewrite decimal_exact. apply (f_equal Fin).
  change (Qc_of_Z 0) with 0%Qc. ring.
Qed.

Lemma exact_sub_zero (x : exact) : (x - of_Z 0 = x)%js.
Proof.
  destruct x as [q|]; [|reflexivity]. apply (f_equal Fin).
  change (Qc_of_Z 0) with 0%Qc. ring.
Qed.

Lemma allocated_total_insert (m : gmap FundId exact) k a :
  m !! k = None ->
  allocated_total (<[k := a]> m) = (allocated_total m + a)%js.
Proof.
  intros Hk. unfold allocated_total.
  apply (map_fold_insert_L (fun _ a acc => (acc + a)%js)); [|exact Hk].
  intros. apply exact_add_swap.
Qed.

(** The loop adds to the total of [result] exactly what [remaining] holds,
    when that is a whole number of cents. *)
Lemma distribute_loop_total (profit : exact)
    (ds : list (ProfitDistribution exact)) :
  profit <> NaN ->
  forall result z,
    ds <> [] ->
    NoDup (fundId <$> ds) ->
    (forall d, d ∈ ds -> result !! fundId d = None) ->
    Forall (fun d => percentage d <> NaN) ds ->
    allocated_total (distribute_loop profit ds result (decimal z 100)) =
    (allocated_total result + decimal z 100)%js.
Proof.
  intros Hp.
  induction ds as [|d ds IH]; intros result z Hne Hnd Hfresh Hfin;
    [congruence|].
  rewrite fmap_cons in Hnd. apply NoDup_cons in Hnd as [Hd Hnd].
  apply Forall_cons in Hfin as [Hpd Hfin].
  destruct ds as [|d' rest].
  - rewrite distribute_loop_single, round2_cents.
    apply allocated_total_insert, Hfresh. left.
  - rewrite distribute_loop_cons.
    destruct (share_of_cents profit d Hp Hpd) as [k Hk]. rewrite Hk, cents_sub.
    rewrite IH; [|discriminate|exact Hnd| |exact Hfin].
    + rewrite allocated_total_insert by (apply Hfresh; left).
      rewrite <- cents_sub, (decimal_exact k).
      apply exact_add_sub_cancel.
    + intros d'' Hd''. rewrite lookup_insert_ne.
      * apply Hfresh. right. exact Hd''.
      * intros Heq. apply Hd. rewrite Heq.
        apply list_elem_of_fmap. eauto.
Qed.

(** What is left after whole-cent shares is a whole number of cents ... *)
Lemma remainder_cents (profit : exact) (init : list (ProfitDistribution exact)) :
  profit <> NaN ->
  forall z,
    Forall (fun d => percentage d <> NaN) init ->
    exists z',
      fold_left (fun r d => (r - share_of profit d)%js) init (decimal z 100)
      = decimal z' 100.
Proof.
  intros Hp.
  induction init as [|d init IH]; intros z Hfin; cbn [fold_left]; [eauto|].
  apply Forall_cons in Hfin as [Hpd Hfin].
  destruct (share_of_cents profit d Hp Hpd) as [k ->]. rewrite cents_sub.
  apply IH, Hfin.
Qed.

(** ... and it is the profit less the sum of those shares. *)
Lemma remainder_sum_of (profit : exact) (init : list (ProfitDistribution exact)) :
  forall x acc,
    fold_left (fun r d => (r - share_of profit d)%js) init (x - acc)%js =
    (x - fold_left num_add (share_of profit <$> init) acc)%js.
Proof.
  induction init as [|d init IH]; intros x acc; [reflexivity|].
  rewrite fmap_cons. cbn [fold_left].
  rewrite exact_sub_sub_add. apply IH.
Qed.


Lemma validateProfitDistribution_nonempty (ds : list (ProfitDistribution exact)) :
  isValid (validateProfitDistribution ds) = true -> ds <> [].
Proof. intros Hv ->. vm_compute in Hv. discriminate. Qed.



(** The two allocations that the specification works out, in binary64. *)
Example allocation_of_600 :
  distributeProfit (of_Z 600 : float) [share "A" 50; share "B" 50]
  = Ok {[ "A" := of_Z 300; "B" := of_Z 300 ]}.
Proof. vm_compute. reflexivity. Qed.

Example allocation_of_66_67 :
  distributeProfit (decimal 6667 100 : float)
    [share "A" 33; share "B" 33; share "C" 34]
  = Ok {[ "A" := of_Z 22; "B" := of_Z 22; "C" := decimal 2267 100 ]}.
Proof. vm_compute. reflexivity. Qed.

(** ** The check of the sum *)

(** C4, as stated, fails: the distribution 60 and 39.99 is accepted, in
    binary64, where its total is 99.99000000000001, and in exact
    arithmetic, where its total is 0.01 away from 100 and not more. *)
Lemma sixty_and_39_99_accepted :
  (let ds : list (ProfitDistribution float) :=
     [share "A" 60; {| fundId := "B"; percentage := decimal 3999 100 |}] in
   isValid (validateProfitDistribution ds) = true /\
   exists m, distributeProfit (of_Z 100) ds = Ok m) /\
  (let ds : list (ProfitDistribution exact) :=
     [share "A" 60; {| fundId := "B"; percentage := decimal 3999 100 |}] in
   isValid (validateProfitDistribution ds) = true /\
   exists m, distributeProfit (of_Z 100) ds = Ok m).
Proof.
  cbv zeta. split; (split; [vm_compute; reflexivity|]).
  - eexists. vm_compute. reflexivity.
  - eexists. rewrite distributeProfit_loop.
    replace (isValid (validateProfitDistribution _)) with true
      by (vm_compute; reflexivity).
    reflexivity.
Qed.

Section Check.

Context {num : Type} `{!Number num}.

Local Open Scope js_scope.

(** [distributeProfit] raises when the check of the sum fails, and only
    then; what it raises is the message of the check. *)
Lemma distributeProfit_throws profit (ds : list (ProfitDistribution num)) :
  (Math_abs (total_percentage ds - of_Z 100) >? decimal 1 100) = true ->
  distributeProfit profit ds = Throw (Error (SumMsg (total_percentage ds))).
Proof.
  intros Hsum. rewrite distributeProfit_loop.
  unfold validateProfitDistribution. rewrite Hsum. reflexivity.
Qed.

Lemma distributeProfit_returns profit (ds : list (ProfitDistribution num)) :
  (Math_abs (total_percentage ds - of_Z 100) >? decimal 1 100) = false ->
  distributeProfit profit ds = Ok (distribute_loop profit ds ∅ profit).
Proof.
  intros Hsum. rewrite distributeProfit_loop.
  unfold validateProfitDistribution. rewrite Hsum. reflexivity.
Qed.

End Check.

(** C4, amended.  [distributeProfit] raises, and returns no allocation,
    exactly when the total of the percentages differs from 100 by more than
    0.01.  In binary64: the single entry 100 is accepted; 60 and 39.99 are
    accepted, 60 and 39.98 are rejected; the empty distribution is rejected
    whatever the profit. *)
Theorem distributeProfit_rejects_iff :
  (forall (num : Type) (N : Number num) profit (ds : list (ProfitDistribution num)),
     (exists e, distributeProfit profit ds = Throw e) <->
     (Math_abs (total_percentage ds - of_Z 100) >? decimal 1 100)%js = true) /\
  (forall profit : float, exists m, distributeProfit profit [share "A" 100] = Ok m) /\
  (forall profit : float,
     exists m,
       distributeProfit profit
         [share "A" 60; {| fundId := "B"; percentage := decimal 3999 100 |}]
       = Ok m) /\
  (forall profit : float,
     exists e,
       distributeProfit profit
         [share "A" 60; {| fundId := "B"; percentage := decimal 3998 100 |}]
       = Throw e) /\
  (forall profit : float,
     distributeProfit profit [] = Throw (Error (SumMsg (of_Z 0)))).
Proof.
  split; [|split; [|split; [|split]]].
  - intros num N profit ds. split.
    + intros [e He].
      destruct (Math_abs (total_percentage ds - of_Z 100) >? decimal 1 100)%js
        eqn:Hsum; [reflexivity|].
      rewrite (distributeProfit_returns _ _ Hsum) in He. discriminate.
    + intros Hsum. eexists. apply distributeProfit_throws, Hsum.
  - intros profit. eexists. apply distributeProfit_returns.
    vm_compute. reflexivity.
  - intros profit. eexists. apply distributeProfit_returns.
    vm_compute. reflexivity.
  - intros profit. eexists. apply distributeProfit_throws.
    vm_compute. reflexivity.
  - intros profit. apply (distributeProfit_throws profit []).
    vm_compute. reflexivity.
Qed.

(** ** The tax toggle *)


(** The total of finite percentages, from a finite start, is finite. *)
Lemma fold_total_finite (ds : list (ProfitDistribution exact)) :
  finite_percentages ds ->
  forall acc,
    exists x, fold_left (fun sum d => (sum + percentage d)%js) ds (Fin acc) = Fin x.
Proof.
  induction ds as [|d ds IH]; intros Hfin acc; [simpl; eauto|].
  apply Forall_cons in Hfin as [Hd Hfin]. cbn [fold_left].
  destruct (percentage d) as [p|]; [|congruence]. apply IH, Hfin.
Qed.

Lemma percentage_rescale (t c p : Qc) (d : ProfitDistribution exact) :
  t <> 0%Qc ->
  percentage d = Fin p ->
  percentage (rescale (Fin t) (Fin c) d) = Fin (p / t * c).
Proof.
  intros Ht Hp. unfold rescale. cbn [percentage]. rewrite Hp. exact_simpl.
  destruct (Qc_eq_dec t 0%Qc) as [H0|_]; [contradiction|]. reflexivity.
Qed.

(** Rescaling every entry rescales the total. *)
Lemma fold_total_rescale (t c : Qc) (ds : list (ProfitDistribution exact)) :
  t <> 0%Qc ->
  finite_percentages ds ->
  forall acc x,
    fold_left (fun sum d => (sum + percentage d)%js) ds (Fin acc) = Fin x ->
    fold_left (fun sum d => (sum + percentage d)%js)
      (map (rescale (Fin t) (Fin c)) ds) (Fin (acc / t * c))
    = Fin (x / t * c).
Proof.
  intros Ht. induction ds as [|d ds IH]; intros Hfin acc x Hx.
  - simpl in *. congruence.
  - apply Forall_cons in Hfin as [Hd Hfin]. cbn [fold_left map] in *.
    destruct (percentage d) as [p|] eqn:Hp; [|congruence].
    rewrite (percentage_rescale t c p d Ht Hp).
    change (Fin (acc / t * c) + Fin (p / t * c))%js
      with (Fin (acc / t * c + p / t * c)).
    replace (acc / t * c + p / t * c)%Qc with ((acc + p) / t * c)%Qc
      by (field; exact Ht).
    apply IH; assumption.
Qed.

Lemma total_percentage_rescale (t c : Qc) (ds : list (ProfitDistribution exact)) :
  t <> 0%Qc ->
  finite_percentages ds ->
  total_percentage ds = Fin t ->
  total_percentage (map (rescale (Fin t) (Fin c)) ds) = Fin c.
Proof.
  intros Ht Hfin Htotal. unfold total_percentage in *.
  change (of_Z 0 : exact) with (Fin (Qc_of_Z 0)) in *.
  replace (Qc_of_Z 0) with (Qc_of_Z 0 / t * c)%Qc at 1
    by (change (Qc_of_Z 0) with 0%Qc; field; exact Ht).
  rewrite (fold_total_rescale t c ds Ht Hfin _ t Htotal).
  f_equal. field. exact Ht.
Qed.

(** Disabling drops the tax entry that enabling appended, and nothing
    else, when the distribution had no tax entry. *)
Lemma filter_rescaled_taxes (T c : exact) (ds : list (ProfitDistribution exact)) :
  Forall (fun d => fundId d <> "taxes") ds ->
  List.filter (fun d => negb (bool_decide (fundId d = "taxes")))
    (map (rescale T c) ds ++ [{| fundId := "taxes"; percentage := of_Z 5 |}])
  = map (rescale T c) ds.
Proof.
  intros Hds. induction Hds as [|d ds Hd _ IH]; [reflexivity|].
  cbn [map app List.filter]. unfold rescale at 1. cbn [fundId].
  rewrite bool_decide_eq_false_2 by exact Hd. cbn [negb].
  f_equal. exact IH.
Qed.

Lemma Qc_of_Z_95_nonzero : Qc_of_Z 95 <> 0%Qc.
Proof.
  unfold Qc_of_Z. intros H. apply Q2Qc_eq_iff in H. discriminate H.
Qed.

(** [NaN] absorbs: a total that starts at [NaN] stays there. *)
Lemma fold_total_NaN (ds : list (ProfitDistribution exact)) :
  fold_left (fun sum d => (sum + percentage d)%js) ds NaN = NaN.
Proof. induction ds as [|d ds IH]; [reflexivity|]. exact IH. Qed.

(** A finite total has finite percentages only. *)
Lemma fold_total_finite_inv (ds : list (ProfitDistribution exact)) :
  forall acc x,
    fold_left (fun sum d => (sum + percentage d)%js) ds acc = Fin x ->
    finite_percentages ds.
Proof.
  induction ds as [|d ds IH]; intros acc x Hx; [constructor|].
  cbn [fold_left] in Hx. constructor; [|exact (IH _ _ Hx)].
  intros Hd. rewrite Hd in Hx. destruct acc; cbn in Hx;
    rewrite fold_total_NaN in Hx; discriminate.
Qed.

Lemma round_trip_normalises env env' (s : FinancialState exact) t :
  Forall (fun d => fundId d <> "taxes") (profitDistribution s) ->
  total_percentage (profitDistribution s) = Fin t ->
  t <> 0%Qc ->
  profitDistribution (enable_then_disable env env' s)
  = map (normalised (Fin t)) (profitDistribution s).
Proof.
  intros Hnotax Ht Ht0.
  pose proof (fold_total_finite_inv _ _ _ Ht) as Hfin.
  unfold enable_then_disable, after. rewrite !toggleTaxFund_runs.
  cbn [snd profitDistribution]. rewrite Ht.
  change (of_Z 95 : exact) with (Fin (Qc_of_Z 95)).
  change (of_Z 100 : exact) with (Fin (Qc_of_Z 100)).
  rewrite (filter_rescaled_taxes _ _ _ Hnotax).
  rewrite (total_percentage_rescale t _ _ Ht0 Hfin Ht).
  rewrite map_map. apply map_ext_in. intros d Hd.
  assert (Hp : percentage d <> NaN).
  { unfold finite_percentages in Hfin. rewrite Forall_forall in Hfin.
    apply Hfin, list_elem_of_In, Hd. }
  destruct (percentage d) as [p|] eqn:Hpd; [|congruence].
  pose proof (percentage_rescale _ (Qc_of_Z 100) _ _ Qc_of_Z_95_nonzero
                (percentage_rescale t (Qc_of_Z 95) p d Ht0 Hpd)) as Hback.
  unfold normalised.
  change (rescale (Fin (Qc_of_Z 95)) (Fin (Qc_of_Z 100))
            (rescale (Fin t) (Fin (Qc_of_Z 95)) d))
    with {| fundId := fundId d;
            percentage :=
              percentage (rescale (Fin (Qc_of_Z 95)) (Fin (Qc_of_Z 100))
                            (rescale (Fin t) (Fin (Qc_of_Z 95)) d)) |}.
  rewrite Hback, Hpd. f_equal.
  change (Fin p * of_Z 100)%js with (Fin (p * Qc_of_Z 100)).
  exact_simpl.
  destruct (Qc_eq_dec t 0%Qc) as [H0|_]; [contradiction|].
  f_equal. field. split; [exact Ht0 | exact Qc_of_Z_95_nonzero].
Qed.

(** A distribution brought to the total it has already is itself. *)
Lemma normalised_100 (ds : list (ProfitDistribution exact)) :
  finite_percentages ds ->
  map (normalised (of_Z 100)) ds = ds.
Proof.
  intros Hfin. induction Hfin as [|d ds Hd _ IH]; [reflexivity|].
  cbn [map]. rewrite IH. f_equal. destruct d as [i p]. unfold normalised.
  cbn [fundId percentage] in *. f_equal.
  destruct p as [p|]; [|congruence].
  change (Fin p * of_Z 100)%js with (Fin (p * Qc_of_Z 100)).
  rewrite exact_div_100. f_equal. field. exact Qc_of_Z_100_nonzero.
Qed.



(** *** A zero base *)

(** Dividing by a zero and scaling by a finite number never gives a finite
    number in binary64: it gives [NaN] or an infinity. *)
Lemma float_div_zero_not_finite (p T c : float) :
  PrimFloat.eqb T (of_Z 0) = true ->
  (exists sg m e, Prim2SF c = S754_finite sg m e) ->
  PrimFloat.is_finite (p / T * c)%js = false.
Proof.
  intros HT (sg & m & e & Hc).
  rewrite FloatAxioms.eqb_spec in HT.
  change (Prim2SF (of_Z 0)) with (S754_zero false) in HT.
  unfold PrimFloat.is_finite, PrimFloat.is_nan, PrimFloat.is_infinity.
  rewrite !FloatAxioms.eqb_spec, FloatAxioms.abs_spec.
  change (Prim2SF infinity) with (S754_infinity false).
  cbn [num_mul num_div float_Number].
  rewrite FloatAxioms.mul_spec, FloatAxioms.div_spec, Hc.
  destruct (Prim2SF T) as [sT|sT| |sT mT eT];
    [|destruct sT; discriminate HT|discriminate HT|destruct sT; discriminate HT].
  destruct (Prim2SF p) as [sp|sp| |sp mp ep]; cbn;
    try reflexivity; destruct sp, sT, sg; reflexivity.
Qed.

(** C7, as stated, fails: with a single entry of percentage 0, enabling
    the tax fund returns normally, sets the flag and stores a distribution
    whose first percentage is [NaN]; disabling it on such an entry and the
    tax entry does the same. *)
Lemma toggle_on_zero_base_stores_nan :
  (let s : FinancialState float := state_with ∅ [] [share "A" 0] in
   total_percentage (profitDistribution s) = of_Z 0 /\
   exists s',
     toggleTaxFund env1 true s = (Ok tt, s') /\
     taxEnabled s = false /\ taxEnabled s' = true /\
     profitDistribution s' =
       [{| fundId := "A"; percentage := nan |}; share "taxes" 5]) /\
  (let s : FinancialState float :=
     state_with ∅ [] [share "A" 0; share "taxes" 5] in
   total_percentage (rescaled_entries false (profitDistribution s)) = of_Z 0 /\
   exists s',
     toggleTaxFund env1 false s = (Ok tt, s') /\
     profitDistribution s' = [{| fundId := "A"; percentage := nan |}]).
Proof.
  cbv zeta. split; (split; [vm_compute; reflexivity|]);
    eexists; repeat split; vm_compute; reflexivity.
Qed.

Lemma rescale_fundIds {num : Type} `{!Number num} (T c : num)
    (ds : list (ProfitDistribution num)) :
  fundId <$> map (rescale T c) ds = fundId <$> ds.
Proof.
  induction ds as [|d ds IH]; [reflexivity|].
  cbn [map]. rewrite !fmap_cons, IH. reflexivity.
Qed.

Lemma rescale_zero_base_not_finite (T c : float)
    (ds : list (ProfitDistribution float)) :
  PrimFloat.eqb T (of_Z 0) = true ->
  (exists sg m e, Prim2SF c = S754_finite sg m e) ->
  Forall (fun d => PrimFloat.is_finite (percentage d) = false)
    (map (rescale T c) ds).
Proof.
  intros HT Hc. induction ds as [|d ds IH]; cbn [map]; constructor.
  - apply float_div_zero_not_finite; assumption.
  - exact IH.
Qed.

(** C7, amended.  [toggleTaxFund] has no check of the base: when the total
    of the entries it rescales is zero it returns normally all the same,
    sets the flag and replaces the distribution, keeping the funds of those
    entries in their order (followed by the tax entry at 5 when enabling),
    and in binary64 every percentage it has rescaled is [NaN] or an
    infinity. *)
Theorem toggleTaxFund_zero_base env enabled (s : FinancialState float) :
  let entries := rescaled_entries enabled (profitDistribution s) in
  PrimFloat.eqb (total_percentage entries) (of_Z 0) = true ->
  exists s' rescaled,
    toggleTaxFund env enabled s = (Ok tt, s') /\
    taxEnabled s' = enabled /\
    funds s' = funds s /\ transactions s' = transactions s /\
    profitDistribution s' =
      rescaled ++ (if enabled then [share "taxes" 5] else []) /\
    fundId <$> rescaled = fundId <$> entries /\
    Forall (fun d => PrimFloat.is_finite (percentage d) = false) rescaled.
Proof.
  intros entries Hzero. rewrite toggleTaxFund_runs.
  eexists _, (map (rescale (total_percentage entries)
                    (if enabled then of_Z 95 else of_Z 100)) entries).
  split; [reflexivity|]. cbn [taxEnabled funds transactions profitDistribution].
  split; [reflexivity|]. split; [reflexivity|]. split; [reflexivity|].
  split; [|split].
  - unfold entries, rescaled_entries. destruct enabled.
    + reflexivity.
    + cbv zeta. rewrite app_nil_r. reflexivity.
  - apply rescale_fundIds.
  - apply rescale_zero_base_not_finite; [exact Hzero|].
    destruct enabled; vm_compute; eauto.
Qed.

Lemma toggleTaxFund_zero_base_witness :
  exists s' rescaled,
    toggleTaxFund env1 true
      (state_with ∅ [] [share "A" 0; share "B" 0] : FinancialState float)
    = (Ok tt, s') /\
    profitDistribution s' = rescaled ++ [share "taxes" 5] /\
    Forall (fun d => PrimFloat.is_finite (percentage d) = false) rescaled.
Proof.
  destruct (toggleTaxFund_zero_base env1 true
              (state_with ∅ [] [share "A" 0; share "B" 0]))
    as (s' & rescaled & Hrun & _ & _ & _ & Hds & _ & Hnan).
  - vm_compute. reflexivity.
  - exists s', rescaled. auto.
Defined.

(** ** The lifetime counters *)




(** ** Deleting a fund *)

(** C8, as stated, fails.  After an income of 0.05 in the default state the
    fund [taxes] has the balance -0.01 and is deleted all the same; and a
    fund with a zero balance that an INCOME transaction names as its source
    fund is deleted too. *)
Lemma deleteFund_accepts_negative_and_income_reference :
  (reachable (nickel : FinancialState float) /\
   exists fund s',
     funds (nickel : FinancialState float) !! "taxes" = Some fund /\
     currentBalance fund = decimal (-1) 100 /\
     deleteFund env1 "taxes" (nickel : FinancialState float) = (Ok tt, s') /\
     funds s' !! "taxes" = None) /\
  (let t : Transaction float :=
     {| tx_id := "t";
        tx_data :=
          {| type := INCOME; amount := of_Z 10; date := 0;
             description := "sale"; costOfProduction := Some (of_Z 0);
             profit := Some (of_Z 10); sourceFundId := Some "A" |};
        tx_createdAt := 1; tx_updatedAt := 1 |} in
   let s : FinancialState float :=
     state_with {[ "A" := fund_with "A" (of_Z 0) (of_Z 0) (of_Z 0) ]} [t] [] in
   sourceFundId t = Some "A" /\
   exists s',
     deleteFund env1 "A" s = (Ok tt, s') /\ funds s' !! "A" = None).
Proof.
  split; [split|].
  - apply reachable_step with (initial 0); [apply reachable_initial|].
    eapply step_addTransaction. apply after_ok. vm_compute. reflexivity.
  - do 2 eexists. split; [vm_compute; reflexivity|].
    split; [vm_compute; reflexivity|].
    split; [apply after_ok; vm_compute; reflexivity|].
    vm_compute. reflexivity.
  - cbv zeta. split; [reflexivity|]. eexists.
    split; [apply after_ok; vm_compute; reflexivity|].
    vm_compute. reflexivity.
Qed.

Lemma existsb_references {num : Type} (id : FundId) (ts : list (Transaction num)) :
  existsb (references id) ts = true <-> referenced_by_expense id ts.
Proof.
  unfold referenced_by_expense. rewrite existsb_exists. split.
  - intros (t & Ht & Hr). unfold references in Hr.
    apply andb_true_iff in Hr as [H1 H2].
    apply bool_decide_eq_true in H1. apply bool_decide_eq_true in H2.
    exists t. split; [apply list_elem_of_In, Ht|auto].
  - intros (t & Ht & H1 & H2). exists t.
    split; [apply list_elem_of_In, Ht|].
    unfold references. apply andb_true_iff.
    split; apply bool_decide_eq_true; assumption.
Qed.

(** In binary64 a balance that is not negative ([0 <= b], which excludes
    [NaN]) is zero ([b === 0]) exactly when it is not positive. *)
Lemma float_not_negative_zero (b : float) :
  (of_Z 0 <=? b)%js = true ->
  (of_Z 0 <? b)%js = false <-> PrimFloat.eqb b (of_Z 0) = true.
Proof.
  cbn [num_le num_lt float_Number].
  rewrite FloatAxioms.leb_spec, FloatAxioms.ltb_spec, FloatAxioms.eqb_spec.
  change (Prim2SF (of_Z 0)) with (S754_zero false).
  destruct (Prim2SF b) as [sb|sb| |sb mb eb]; try destruct sb; cbn;
    intros H; split; intros H'; congruence.
Qed.

(** C8, amended.  For a fund that exists and whose balance is not
    negative, [deleteFund] returns exactly when the balance is zero and no
    EXPENSE transaction names the fund as its source fund, and it then
    removes the fund and keeps the transactions; otherwise it raises one of
    its two reasons and leaves the state as it was. *)
Theorem deleteFund_zero_and_unreferenced
    env id (s : FinancialState float) fund :
  funds s !! id = Some fund ->
  (of_Z 0 <=? currentBalance fund)%js = true ->
  ((exists s', deleteFund env id s = (Ok tt, s')) <->
   PrimFloat.eqb (currentBalance fund) (of_Z 0) = true /\
   ~ referenced_by_expense id (transactions s)) /\
  (forall s',
     deleteFund env id s = (Ok tt, s') ->
     funds s' = delete id (funds s) /\ transactions s' = transactions s) /\
  (PrimFloat.eqb (currentBalance fund) (of_Z 0) = false ->
   deleteFund env id s =
   (Throw (Error (Msg "Cannot delete fund with remaining balance")), s)) /\
  (PrimFloat.eqb (currentBalance fund) (of_Z 0) = true ->
   referenced_by_expense id (transactions s) ->
   deleteFund env id s =
   (Throw (Error (Msg "Cannot delete fund referenced in transactions")), s)).
Proof.
  intros Hfund Hnonneg.
  pose proof (float_not_negative_zero _ Hnonneg) as Hzero.
  pose proof (existsb_references id (transactions s)) as Href.
  rewrite (deleteFund_existing env id s fund Hfund).
  destruct (of_Z 0 <? currentBalance fund)%js eqn:Hpos.
  - assert (Hnz : PrimFloat.eqb (currentBalance fund) (of_Z 0) = false).
    { destruct (PrimFloat.eqb _ _); [|reflexivity].
      destruct Hzero as [_ Hz]. discriminate (Hz eq_refl). }
    rewrite Hnz. split; [|split; [|split]].
    + split; [intros [s' [=]]|intros [[=] _]].
    + intros s' [=].
    + reflexivity.
    + intros [=].
  - assert (H0 : PrimFloat.eqb (currentBalance fund) (of_Z 0) = true)
      by (apply Hzero; reflexivity).
    rewrite H0.
    destruct (existsb (references id) (transactions s)) eqn:Hex.
    + assert (Hr : referenced_by_expense id (transactions s))
        by (apply Href; reflexivity).
      split; [|split; [|split]].
      * split; [intros [s' [=]]|intros [_ Hn]; contradiction].
      * intros s' [=].
      * intros [=].
      * reflexivity.
    + assert (Hr : ~ referenced_by_expense id (transactions s)).
      { intros Hr. apply Href in Hr. discriminate. }
      split; [|split; [|split]].
      * split; [auto|eauto].
      * intros s' [= <-]. auto.
      * intros [=].
      * intros _ Hr'. contradiction.
Qed.

(** A fund with the balance 0.01 cannot be deleted. *)
Lemma deleteFund_zero_and_unreferenced_witness :
  let s : FinancialState float :=
    state_with {[ "A" := fund_with "A" (decimal 1 100) (decimal 1 100) (of_Z 0) ]}
      [] [] in
  deleteFund env1 "A" s =
  (Throw (Error (Msg "Cannot delete fund with remaining balance")), s).
Proof.
  cbv zeta.
  refine (proj1 (proj2 (proj2
            (deleteFund_zero_and_unreferenced env1 "A"
               (state_with
                  {[ "A" := fund_with "A" (decimal 1 100) (decimal 1 100) (of_Z 0) ]}
                  [] [])
               (fund_with "A" (decimal 1 100) (decimal 1 100) (of_Z 0))
               _ _))) _).
  - reflexivity.
  - vm_compute. reflexivity.
  - vm_compute. reflexivity.
Defined.

(** * The store in use *)

(** ** What an action leaves, in every arithmetic *)

Section Outcomes.

Context {num : Type} `{!Number num}.

Local Open Scope js_scope.

(** A valid income carries a cost, and its profit can be computed. *)
Lemma validateTransaction_income today (td : TransactionData num) fs v :
  type td = INCOME ->
  validateTransaction today td fs = Ok v ->
  isValid v = true ->
  exists cost,
    costOfProduction td = Some cost /\
    calculateProfit (amount td) cost = Ok (amount td - cost) /\
    (amount td <=? of_Z 0) = false /\
    (cost <? of_Z 0) = false /\ (cost >? amount td) = false /\
    (amount td - cost <? of_Z 0) = false.
Proof.
  unfold validateTransaction. intros Hty Hv Hok. rewrite Hty in Hv.
  destruct (amount td <=? of_Z 0) eqn:Hpos; cbv iota in Hv;
    [injection Hv as <-; discriminate|].
  destruct (today <? date td)%Z; cbv iota in Hv;
    [injection Hv as <-; discriminate|].
  destruct (costOfProduction td) as [cost|]; cbv iota in Hv;
    [|injection Hv as <-; discriminate].
  destruct (cost <? of_Z 0) eqn:Hneg; cbv iota in Hv;
    [injection Hv as <-; discriminate|].
  destruct (cost >? amount td) eqn:Hgt; cbv iota in Hv;
    [injection Hv as <-; discriminate|].
  exists cost. unfold calculateProfit in *.
  destruct (amount td <? of_Z 0); [discriminate|].
  rewrite Hneg, Hgt in *. simpl in Hv.
  destruct (amount td - cost <? of_Z 0); [injection Hv as <-; discriminate|].
  auto 10.
Qed.

(** What [addTransaction] does with a valid request: an expense is always
    applied; an income is applied when the distribution passes the check of
    its sum, and otherwise refused with the message of that check. *)
Lemma addTransaction_run env (td : TransactionData num) (s : FinancialState num) v :
  validateTransaction (now env) td (funds s) = Ok v ->
  isValid v = true ->
  (type td = EXPENSE -> exists s', addTransaction env td s = (Ok tt, s')) /\
  (type td = INCOME ->
   (isValid (validateProfitDistribution (profitDistribution s)) = true ->
    exists s', addTransaction env td s = (Ok tt, s')) /\
   (isValid (validateProfitDistribution (profitDistribution s)) = false ->
    addTransaction env td s =
    (Throw (Error (SumMsg (total_percentage (profitDistribution s)))), s))).
Proof.
  intros Hv Hok. split; [|intros Hty; split].
  - intros Hty.
    destruct (validateTransaction_expense _ _ _ _ Hty Hv Hok)
      as (id & fund & Hid & Hf & Hfund & _ & _).
    unfold addTransaction, store_bind, get, call, throw, set. simpl.
    rewrite Hv, Hok, Hty. simpl. unfold applyTransactionToFunds. simpl.
    rewrite Hf, Hfund. eauto.
  - intros Hds.
    destruct (validateTransaction_income _ _ _ _ Hty Hv Hok)
      as (cost & Hcost & Hp & _).
    unfold addTransaction, store_bind, get, call, throw, set. simpl.
    rewrite Hv, Hok, Hty, Hcost. simpl. rewrite Hp. simpl.
    unfold applyTransactionToFunds. simpl.
    rewrite Hp. simpl. unfold distributeProfit. rewrite Hds. simpl. eauto.
  - intros Hds.
    destruct (validateTransaction_income _ _ _ _ Hty Hv Hok)
      as (cost & Hcost & Hp & _).
    unfold addTransaction, store_bind, get, call, throw, set. simpl.
    rewrite Hv, Hok, Hty, Hcost. simpl. rewrite Hp. simpl.
    unfold applyTransactionToFunds. simpl.
    rewrite Hp. simpl. unfold distributeProfit. rewrite Hds. simpl.
    unfold validateProfitDistribution in *.
    destruct (Math_abs _ >? _); [reflexivity|discriminate].
Qed.

(** What a validated expense leaves: the source fund debited. *)
Lemma addTransaction_expense
    env (td : TransactionData num) (s : FinancialState num) v :
  type td = EXPENSE ->
  validateTransaction (now env) td (funds s) = Ok v ->
  isValid v = true ->
  exists id fund s',
    sourceFundId td = Some id /\
    funds s !! id = Some fund /\
    (currentBalance fund <? amount td) = false /\
    addTransaction env td s = (Ok tt, s') /\
    funds s' = <[id := debit (now env) fund (amount td)]> (funds s).
Proof.
  intros Hty Hv Hok.
  destruct (validateTransaction_expense _ _ _ _ Hty Hv Hok)
    as (id & fund & Hid & Hf & Hfund & Hbal & _).
  exists id, fund. eexists. split; [exact Hid|]. split; [exact Hfund|].
  split; [exact Hbal|].
  unfold addTransaction, store_bind, get, call, throw, set. simpl.
  rewrite Hv, Hok, Hty. simpl. unfold applyTransactionToFunds. simpl.
  rewrite Hf, Hfund. split; reflexivity.
Qed.

(** What a validated income leaves: the funds credited with the allocation
    of the profit. *)
Lemma addTransaction_income
    env (td : TransactionData num) (s : FinancialState num) v cost m :
  type td = INCOME ->
  validateTransaction (now env) td (funds s) = Ok v ->
  isValid v = true ->
  costOfProduction td = Some cost ->
  distributeProfit (amount td - cost) (profitDistribution s) = Ok m ->
  exists s',
    addTransaction env td s = (Ok tt, s') /\
    funds s' = fold_left (credit (now env)) (map_to_list m) (funds s).
Proof.
  intros Hty Hv Hok Hcost Hm.
  destruct (validateTransaction_income _ _ _ _ Hty Hv Hok)
    as (cost' & Hcost' & Hp & _).
  assert (cost' = cost) as -> by congruence.
  eexists.
  unfold addTransaction, store_bind, get, call, throw, set. simpl.
  rewrite Hv, Hok, Hty, Hcost. simpl. rewrite Hp. simpl.
  unfold applyTransactionToFunds. simpl. rewrite Hp. simpl.
  rewrite Hm. simpl. split; reflexivity.
Qed.

(** [applyTransactionToFunds] creates no fund and removes none. *)
Lemma applyTransactionToFunds_dom today fs (tx : Transaction num) ds fs' :
  applyTransactionToFunds today fs tx ds = Ok fs' ->
  forall id, is_Some (fs' !! id) <-> is_Some (fs !! id).
Proof.
  unfold applyTransactionToFunds. destruct (type tx).
  - destruct (calculateProfit _ _) as [p|]; simpl; [|discriminate].
    destruct (distributeProfit p ds) as [m|]; simpl; [|discriminate].
    intros [= <-] id. rewrite credit_allocation_lookup.
    rewrite fmap_is_Some. reflexivity.
  - destruct (truthy _) as [source|]; [|intros [= <-]; reflexivity].
    destruct (fs !! source) as [fund0|] eqn:Hsource;
      [|intros [= <-]; reflexivity].
    intros [= <-] id.
    destruct (decide (source = id)) as [->|Hne].
    + rewrite lookup_insert_eq, Hsource. split; eauto.
    + rewrite lookup_insert_ne by exact Hne. reflexivity.
Qed.

(** What a completed [deleteFund] has found and done. *)
Lemma deleteFund_ok env id (s s' : FinancialState num) :
  deleteFund env id s = (Ok tt, s') ->
  exists fund,
    funds s !! id = Some fund /\
    (currentBalance fund >? of_Z 0) = false /\
    existsb (references id) (transactions s) = false /\
    s' = {| funds := delete id (funds s);
            transactions := transactions s;
            profitDistribution :=
              List.filter (fun d => negb (bool_decide (fundId d = id)))
                (profitDistribution s);
            taxEnabled := taxEnabled s;
            lastUpdated := now env |}.
Proof.
  intros Hrun. destruct (funds s !! id) as [fund|] eqn:Hid.
  - rewrite (deleteFund_existing _ _ _ _ Hid) in Hrun. exists fund.
    destruct (currentBalance fund >? of_Z 0); [discriminate|].
    destruct (existsb _ _); [discriminate|].
    injection Hrun as <-. auto.
  - unfold deleteFund, store_bind, get, throw in Hrun. simpl in Hrun.
    rewrite Hid in Hrun. discriminate.
Qed.


(** *** The funds of the recorded expenses *)

Lemma step_sources_exist (s s' : FinancialState num) :
  step s s' -> sources_exist s -> sources_exist s'.
Proof.
  intros Hstep Hs.
  destruct Hstep as [env td Hrun|env fd Hfresh Hrun|env k Hrun|env ds Hrun|env b Hrun].
  - apply addTransaction_ok in Hrun
      as (v & tx & fs' & Hv & Hok & Hty & _ & _ & Hsource & Happly & ->).
    intros t Ht Hexp. simpl in Ht. apply elem_of_app in Ht as [Ht|Ht].
    + destruct (Hs t Ht Hexp) as (id & fund & Hid & Hfund).
      assert (Hsome : is_Some (fs' !! id)).
      { eapply applyTransactionToFunds_dom; eauto. }
      destruct Hsome as [fund' Hfund']. simpl. eauto.
    + apply list_elem_of_singleton in Ht as ->.
      rewrite Hty in Hexp.
      destruct (validateTransaction_expense _ _ _ _ Hexp Hv Hok)
        as (id & fund & Hid & _ & Hfund & _).
      assert (Hsome : is_Some (fs' !! id)).
      { eapply applyTransactionToFunds_dom; eauto. }
      destruct Hsome as [fund' Hfund']. simpl. rewrite Hsource. eauto.
  - injection Hrun as <-. intros t Ht Hexp. simpl in *.
    destruct (Hs t Ht Hexp) as (id & fund & Hid & Hfund).
    exists id, fund. split; [exact Hid|].
    rewrite lookup_insert_ne; [exact Hfund|]. congruence.
  - apply deleteFund_ok in Hrun as (fund0 & _ & _ & Hex & ->).
    intros t Ht Hexp. simpl in *.
    destruct (Hs t Ht Hexp) as (id & fund & Hid & Hfund).
    exists id, fund. split; [exact Hid|].
    rewrite lookup_delete_ne; [exact Hfund|].
    intros ->. enough (existsb (references id) (transactions s) = true)
      by congruence.
    apply existsb_references. exists t. auto.
  - injection Hrun as <-. exact Hs.
  - rewrite toggleTaxFund_runs in Hrun. injection Hrun as <-. exact Hs.
Qed.

Lemma reachable_sources_exist (s : FinancialState num) :
  reachable s -> sources_exist s.
Proof.
  induction 1 as [boot|s s' _ IH Hstep].
  - intros t Ht. apply elem_of_nil in Ht. contradiction.
  - eapply step_sources_exist; eauto.
Qed.

(** X2.  In every reachable state the source fund of every recorded
    EXPENSE exists, and [deleteFund] refuses to delete it, for its balance
    or for the reference, leaving the state as it was. *)
Theorem recorded_expense_keeps_its_fund
    (s : FinancialState num) (t : Transaction num) :
  reachable s ->
  t ∈ transactions s ->
  type t = EXPENSE ->
  exists id fund,
    sourceFundId t = Some id /\
    funds s !! id = Some fund /\
    forall env, exists reason,
      deleteFund env id s = (Throw (Error (Msg reason)), s).
Proof.
  intros Hreach Ht Hexp.
  destruct (reachable_sources_exist s Hreach t Ht Hexp)
    as (id & fund & Hid & Hfund).
  exists id, fund. split; [exact Hid|]. split; [exact Hfund|].
  intros env. rewrite (deleteFund_existing env id s fund Hfund).
  destruct (currentBalance fund >? of_Z 0); [eauto|].
  replace (existsb (references id) (transactions s)) with true; [eauto|].
  symmetry. apply existsb_references. exists t. auto.
Qed.

(** X3.  The list of transactions only grows at its end: an action of the
    ledger leaves it as it is or, when it is a completed [addTransaction],
    adds one transaction after the others; every transaction stays at its
    index, unchanged. *)
Theorem transactions_are_append_only (s s' : FinancialState num) :
  step s s' ->
  (transactions s' = transactions s \/
   exists env td tx,
     addTransaction env td s = (Ok tt, s') /\
     transactions s' = transactions s ++ [tx]) /\
  forall i t, transactions s !! i = Some t -> transactions s' !! i = Some t.
Proof.
  intros Hstep.
  assert (H : transactions s' = transactions s \/
              exists env td tx,
                addTransaction env td s = (Ok tt, s') /\
                transactions s' = transactions s ++ [tx]).
  { destruct Hstep as [env td Hrun|env fd _ Hrun|env k Hrun|env ds Hrun|env b Hrun].
    - right. exists env, td.
      destruct (addTransaction_ok env td s s' Hrun)
        as (v & tx & fs' & _ & _ & _ & _ & _ & _ & _ & ->).
      exists tx. split; [exact Hrun|reflexivity].
    - injection Hrun as <-. left. reflexivity.
    - apply deleteFund_ok in Hrun as (fund & _ & _ & _ & ->). left. reflexivity.
    - injection Hrun as <-. left. reflexivity.
    - rewrite toggleTaxFund_runs in Hrun. injection Hrun as <-. left. reflexivity. }
  split; [exact H|]. intros i t Hi.
  destruct H as [->|(env & td & tx & _ & ->)]; [exact Hi|].
  apply lookup_app_l_Some, Hi.
Qed.

(** *** A fund without an entry *)

Lemma distributeProfit_other profit (ds : list (ProfitDistribution num)) m id :
  distributeProfit profit ds = Ok m ->
  id ∉ fundId <$> ds ->
  m !! id = None.
Proof.
  rewrite distributeProfit_loop.
  destruct (negb _); [discriminate|]. intros [= <-] Hid.
  rewrite distribute_loop_other by exact Hid. apply lookup_empty.
Qed.

Lemma find_fundId_None (ds : list (ProfitDistribution num)) id :
  id ∉ fundId <$> ds ->
  List.find (fun d => bool_decide (fundId d = id)) ds = None.
Proof.
  induction ds as [|d ds IH]; intros Hid; [reflexivity|].
  rewrite fmap_cons in Hid. apply not_elem_of_cons in Hid as [Hne Hid].
  cbn [List.find]. rewrite bool_decide_eq_false_2 by congruence.
  apply IH, Hid.
Qed.

(** X4.  A fund that the distribution does not name is shown with 0% on
    the funds page, and a completed INCOME leaves it exactly as it was,
    its [updatedAt] included. *)
Theorem fund_without_entry_receives_nothing
    env (td : TransactionData num) (s s' : FinancialState num) id :
  id ∉ fundId <$> profitDistribution s ->
  type td = INCOME ->
  addTransaction env td s = (Ok tt, s') ->
  getDistributionPercentage (profitDistribution s) id = of_Z 0 /\
  funds s' !! id = funds s !! id.
Proof.
  intros Hid Hty Hrun. split.
  - unfold getDistributionPercentage. rewrite find_fundId_None by exact Hid.
    reflexivity.
  - apply addTransaction_ok in Hrun
      as (v & tx & fs' & _ & _ & Htx & _ & _ & _ & Happly & ->).
    cbn [funds]. unfold applyTransactionToFunds in Happly.
    rewrite Htx, Hty in Happly.
    destruct (calculateProfit _ _) as [p|]; cbn [result_bind] in Happly;
      [|discriminate].
    destruct (distributeProfit p _) as [m|] eqn:Hm; cbn [result_bind] in Happly;
      [|discriminate].
    injection Happly as <-. rewrite credit_allocation_lookup.
    rewrite (distributeProfit_other _ _ _ _ Hm Hid).
    destruct (funds s !! id); reflexivity.
Qed.

(** *** Budgets *)

Lemma filter_other_budgets (id : string) (bs : list (Budget num)) :
  Forall (fun b => budget_id b <> id) bs ->
  List.filter (fun b => negb (bool_decide (budget_id b = id))) bs = bs.
Proof.
  induction 1 as [|b bs Hb _ IH]; [reflexivity|].
  cbn [List.filter]. rewrite bool_decide_eq_false_2 by exact Hb.
  cbn [negb]. f_equal. exact IH.
Qed.

(** X5.  [addBudget] appends one budget, ACTIVE, with a current amount of
    0 and the name, target and allocations it was given; when its
    identifier is new, [deleteBudget] of that identifier gives back the
    list of budgets as it was.  Neither touches the funds, the
    transactions, the distribution or the tax flag. *)
Theorem addBudget_then_deleteBudget
    env env' (budgetData : BudgetData num) (store : FinanceStore num) :
  Forall (fun b => budget_id b <> uuid env) (budgets store) ->
  let added := addBudget env budgetData store in
  let removed := deleteBudget env' (uuid env) added in
  (exists b,
     budgets added = budgets store ++ [b] /\
     budget_id b = uuid env /\ status b = ACTIVE /\
     currentAmount b = of_Z 0 /\
     budget_name b = new_name budgetData /\
     targetAmount b = new_targetAmount budgetData /\
     allocations b = new_allocations budgetData) /\
  budgets removed = budgets store /\
  funds (ledger removed) = funds (ledger store) /\
  transactions (ledger removed) = transactions (ledger store) /\
  profitDistribution (ledger removed) = profitDistribution (ledger store) /\
  taxEnabled (ledger removed) = taxEnabled (ledger store).
Proof.
  intros Hfresh added removed. split.
  - eexists. split; [reflexivity|]. cbn. auto 10.
  - split; [|cbn; auto].
    unfold removed, added, deleteBudget, addBudget. cbn [budgets].
    rewrite List.filter_app, filter_other_budgets by exact Hfresh.
    cbn [List.filter budget_id].
    rewrite bool_decide_eq_true_2 by reflexivity. cbn [negb].
    apply app_nil_r.
Qed.

(** X6.  [updateBudget] keeps the number and the order of the budgets and,
    unless the update gives an id, their identifiers; the budget at each
    index is patched when it has the identifier and kept otherwise, so an
    identifier that no budget has changes none; the ledger is untouched
    but for its time. *)
Theorem updateBudget_changes_matching_only
    env budgetId (updates : BudgetUpdates num) (store : FinanceStore num) :
  let store' := updateBudget env budgetId updates store in
  length (budgets store') = length (budgets store) /\
  (put_id updates = None ->
   budget_id <$> budgets store' = budget_id <$> budgets store) /\
  (Forall (fun b => budget_id b <> budgetId) (budgets store) ->
   budgets store' = budgets store) /\
  (forall i b,
     budgets store !! i = Some b ->
     budgets store' !! i =
     Some (if bool_decide (budget_id b = budgetId)
           then patched (now env) b updates else b)) /\
  funds (ledger store') = funds (ledger store) /\
  transactions (ledger store') = transactions (ledger store) /\
  profitDistribution (ledger store') = profitDistribution (ledger store).
Proof.
  intros store'. unfold store', updateBudget. cbn [budgets ledger touch funds
    transactions profitDistribution].
  split; [apply length_map|]. split; [|split; [|split; [|auto]]].
  - intros Hid. induction (budgets store) as [|b bs IH]; [reflexivity|].
    cbn [map]. rewrite !fmap_cons, IH. f_equal.
    destruct (bool_decide _); [|reflexivity].
    unfold patched. cbn [budget_id]. rewrite Hid. reflexivity.
  - induction 1 as [|b bs Hb _ IH]; [reflexivity|].
    cbn [map]. rewrite bool_decide_eq_false_2 by exact Hb. f_equal. exact IH.
  - intros i b Hi. change (map ?f ?l) with (f <$> l).
    rewrite list_lookup_fmap, Hi. reflexivity.
Qed.

End Outcomes.


Lemma reachable_spent : reachable (spent : FinancialState float).
Proof.
  apply reachable_step with earned.
  - apply reachable_step with (initial 0); [apply reachable_initial|].
    eapply step_addTransaction. apply after_ok. vm_compute. reflexivity.
  - eapply step_addTransaction. apply after_ok. vm_compute. reflexivity.
Defined.

(** After an expense from the fund [personal], that fund cannot be
    deleted. *)
Lemma recorded_expense_keeps_its_fund_witness :
  exists fund reason,
    funds (spent : FinancialState float) !! "personal" = Some fund /\
    deleteFund env1 "personal" (spent : FinancialState float)
    = (Throw (Error (Msg reason)), spent).
Proof.
  destruct (recorded_expense_keeps_its_fund (spent : FinancialState float)
              {| tx_id := "id-1";
                 tx_data := expense (of_Z 10) "personal";
                 tx_createdAt := 1000; tx_updatedAt := 1000 |})
    as (id & fund & Hid & Hfund & Hdel).
  - exact reachable_spent.
  - apply list_elem_of_In. vm_compute. right. left. reflexivity.
  - reflexivity.
  - injection Hid as <-. destruct (Hdel env1) as [reason Hreason].
    exists fund, reason. split; [exact Hfund | exact Hreason].
Defined.

(** The income recorded first is still the first transaction after the
    expense. *)
Lemma transactions_are_append_only_witness :
  exists t : Transaction float,
    transactions (earned : FinancialState float) !! 0%nat = Some t /\
    transactions (spent : FinancialState float) !! 0%nat = Some t.
Proof.
  eexists. split; [vm_compute; reflexivity|].
  refine (proj2 (transactions_are_append_only (num := float) earned spent _)
            0%nat _ _).
  - eapply step_addTransaction. apply after_ok. vm_compute. reflexivity.
  - vm_compute. reflexivity.
Defined.

(** With the profit split between [A] and [B], an income leaves [C] as it
    was. *)
Lemma fund_without_entry_receives_nothing_witness :
  funds (after (addTransaction env1 (income (of_Z 100) (of_Z 0)))
           (three_funds : FinancialState float)) !! "C"
  = funds (three_funds : FinancialState float) !! "C".
Proof.
  refine (proj2 (fund_without_entry_receives_nothing (num := float) env1
                   (income (of_Z 100) (of_Z 0)) three_funds _ "C" _ _ _)).
  - apply (bool_decide_unpack _). vm_compute. reflexivity.
  - reflexivity.
  - apply after_ok. vm_compute. reflexivity.
Defined.

(** A second budget, added and deleted again, leaves the first. *)
Lemma addBudget_then_deleteBudget_witness :
  budgets
    (deleteBudget env1 "id-1"
       (addBudget env1
          {| new_name := "Holiday"; new_targetAmount := of_Z 500;
             new_allocations := [] |}
          (one_budget : FinanceStore float)))
  = budgets (one_budget : FinanceStore float).
Proof.
  refine (proj1 (proj2 (addBudget_then_deleteBudget (num := float) env1 env1
                          {| new_name := "Holiday"; new_targetAmount := of_Z 500;
                             new_allocations := [] |}
                          one_budget _))).
  repeat constructor. discriminate.
Defined.

(** ** binary64 *)

(** *** The failures of [addTransaction] *)

(** A number that is not [<= 0] is not [< 0]. *)
Lemma float_not_le_not_lt (a : float) :
  (a <=? of_Z 0)%js = false -> (a <? of_Z 0)%js = false.
Proof.
  cbn [num_le num_lt float_Number].
  rewrite FloatAxioms.leb_spec, FloatAxioms.ltb_spec.
  unfold SFleb, SFltb. destruct (SFcompare _ _) as [[| |]|]; congruence.
Qed.

(** [validateTransaction] always returns its verdict: the checks it makes
    before it calls [calculateProfit] are those that make that call raise. *)
Lemma validateTransaction_returns today (td : TransactionData float) fs :
  exists v, validateTransaction today td fs = Ok v.
Proof.
  unfold validateTransaction.
  destruct (amount td <=? of_Z 0)%js eqn:Hpos; [eauto|].
  destruct (today <? date td)%Z; [eauto|].
  destruct (type td).
  - destruct (costOfProduction td) as [cost|]; [|eauto].
    destruct (cost <? of_Z 0)%js eqn:Hneg; [eauto|].
    destruct (cost >? amount td)%js eqn:Hgt; [eauto|].
    unfold calculateProfit.
    rewrite (float_not_le_not_lt _ Hpos), Hneg, Hgt. cbn [result_bind].
    destruct (amount td - cost <? of_Z 0)%js; eauto.
  - destruct (truthy _) as [source|]; [|eauto].
    destruct (fs !! source) as [fund|]; [|eauto].
    destruct (currentBalance fund <? amount td)%js; eauto.
Qed.

(** X7.  In binary64 [addTransaction] fails in two ways only, and in both
    it leaves the state as it was: with the reason for which
    [validateTransaction] rejects the request, or, for an INCOME that is
    valid, with the message of the check of the sum when the distribution
    of the state does not pass it.  A valid EXPENSE never fails, and no
    [TypeError] is raised. *)
Theorem addTransaction_failures
    env (td : TransactionData float) (s s' : FinancialState float) e :
  addTransaction env td s = (Throw e, s') ->
  s' = s /\
  ((exists v m,
      validateTransaction (now env) td (funds s) = Ok v /\
      isValid v = false /\ error v = Some m /\ e = Error m) \/
   (type td = INCOME /\
    (exists v,
       validateTransaction (now env) td (funds s) = Ok v /\ isValid v = true) /\
    isValid (validateProfitDistribution (profitDistribution s)) = false /\
    e = Error (SumMsg (total_percentage (profitDistribution s))))).
Proof.
  intros Hrun. split; [exact (addTransaction_throw_unchanged _ _ _ _ _ Hrun)|].
  destruct (validateTransaction_returns (now env) td (funds s)) as [v Hv].
  destruct (isValid v) eqn:Hok.
  - right. destruct (addTransaction_run env td s v Hv Hok) as [Hexp Hinc].
    destruct (type td) eqn:Hty.
    + destruct (Hinc eq_refl) as [Hgood Hbad].
      destruct (isValid (validateProfitDistribution (profitDistribution s))).
      * destruct (Hgood eq_refl) as [s'' Hs'']. congruence.
      * rewrite (Hbad eq_refl) in Hrun. injection Hrun as <- _.
        split; [reflexivity|]. split; [eauto|]. split; reflexivity.
    + destruct (Hexp eq_refl) as [s'' Hs'']. congruence.
  - left. destruct (validateTransaction_reason _ _ _ _ Hv Hok) as [m Hm].
    exists v, m. split; [exact Hv|]. split; [exact Hok|]. split; [exact Hm|].
    unfold addTransaction, store_bind, get, call, throw in Hrun. simpl in Hrun.
    rewrite Hv, Hok, Hm in Hrun. simpl in Hrun. congruence.
Qed.

(** An expense of 10 from an empty fund fails and changes nothing. *)
Lemma addTransaction_failures_witness :
  after (addTransaction env1 (expense (of_Z 10) "personal"))
    (initial 0 : FinancialState float)
  = initial 0.
Proof.
  refine (proj1 (addTransaction_failures env1 (expense (of_Z 10) "personal")
                   (initial 0) _
                   (Error (Msg "Insufficient funds in selected account")) _)).
  vm_compute. reflexivity.
Defined.

(** *** An amount that is not a number *)

(** [NaN] is absorbing, and compares false. *)
Lemma float_nan_add_r (x : float) : (x + nan)%js = nan.
Proof.
  apply Prim2SF_inj. cbn [num_add nan float_Number].
  rewrite FloatAxioms.add_spec. change (Prim2SF PrimFloat.nan) with S754_nan.
  destruct (Prim2SF x) as [[]|[]| |[] ? ?]; reflexivity.
Qed.

Lemma float_nan_sub_r (x : float) : (x - nan)%js = nan.
Proof.
  apply Prim2SF_inj. cbn [num_sub nan float_Number].
  rewrite FloatAxioms.sub_spec. change (Prim2SF PrimFloat.nan) with S754_nan.
  destruct (Prim2SF x) as [[]|[]| |[] ? ?]; reflexivity.
Qed.

Lemma float_nan_sub_l (x : float) : (nan - x)%js = nan.
Proof.
  apply Prim2SF_inj. cbn [num_sub nan float_Number].
  rewrite FloatAxioms.sub_spec. change (Prim2SF PrimFloat.nan) with S754_nan.
  reflexivity.
Qed.

Lemma float_nan_mul_l (x : float) : (nan * x)%js = nan.
Proof.
  apply Prim2SF_inj. cbn [num_mul nan float_Number].
  rewrite FloatAxioms.mul_spec. change (Prim2SF PrimFloat.nan) with S754_nan.
  reflexivity.
Qed.

Lemma float_nan_lt_r (x : float) : (x <? nan)%js = false.
Proof.
  cbn [num_lt nan float_Number].
  rewrite FloatAxioms.ltb_spec. change (Prim2SF PrimFloat.nan) with S754_nan.
  unfold SFltb. destruct (Prim2SF x) as [[]|[]| |[] ? ?]; reflexivity.
Qed.

Lemma float_nan_lt_l (x : float) : (nan <? x)%js = false.
Proof.
  cbn [num_lt nan float_Number].
  rewrite FloatAxioms.ltb_spec. change (Prim2SF PrimFloat.nan) with S754_nan.
  reflexivity.
Qed.

Lemma float_nan_share (d : ProfitDistribution float) :
  share_of (nan : float) d = nan.
Proof.
  unfold share_of. rewrite float_nan_mul_l. vm_compute. reflexivity.
Qed.

Lemma float_nan_round2 : round2 (nan : float) = nan.
Proof. vm_compute. reflexivity. Qed.

(** Of a profit that is [NaN] every entry is allocated [NaN]. *)
Lemma distribute_loop_nan (ds : list (ProfitDistribution float)) :
  forall result d,
    d ∈ ds ->
    distribute_loop nan ds result nan !! fundId d = Some nan.
Proof.
  induction ds as [|d1 ds IH]; intros result d Hd.
  - apply elem_of_nil in Hd. contradiction.
  - destruct ds as [|d2 rest].
    + apply list_elem_of_singleton in Hd as ->.
      rewrite distribute_loop_single, float_nan_round2. apply lookup_insert_eq.
    + rewrite distribute_loop_cons, float_nan_share, float_nan_sub_r.
      apply elem_of_cons in Hd as [->|Hd]; [|apply IH, Hd].
      destruct (decide (fundId d1 ∈ fundId <$> d2 :: rest)) as [Hin|Hout].
      * apply list_elem_of_fmap in Hin as (d' & -> & Hd'). apply IH, Hd'.
      * rewrite distribute_loop_other by exact Hout. apply lookup_insert_eq.
Qed.

(** X8.  An INCOME whose amount is [NaN] passes [validateTransaction]: no
    comparison with [NaN] holds, so no check rejects it.  With a cost that
    is not negative and a distribution that passes the check of its sum,
    [addTransaction] records it, and the balance and the lifetime inflow of
    every fund that the distribution names become [NaN]. *)
Theorem income_of_nan_poisons_funds
    env (td : TransactionData float) (s : FinancialState float) cost :
  type td = INCOME ->
  amount td = nan ->
  (date td <= now env)%Z ->
  costOfProduction td = Some cost ->
  (cost <? of_Z 0)%js = false ->
  isValid (validateProfitDistribution (profitDistribution s)) = true ->
  validateTransaction (now env) td (funds s) = Ok valid /\
  exists s',
    addTransaction env td s = (Ok tt, s') /\
    forall d fund,
      d ∈ profitDistribution s ->
      funds s !! fundId d = Some fund ->
      exists fund',
        funds s' !! fundId d = Some fund' /\
        currentBalance fund' = nan /\ lifetimeInflow fund' = nan.
Proof.
  intros Hty Hnan Hdate Hcost Hneg Hvalid.
  assert (Hv : validateTransaction (now env) td (funds s) = Ok valid).
  { unfold validateTransaction, calculateProfit.
    rewrite Hty, Hcost, Hnan, Hneg, !float_nan_lt_l, float_nan_sub_l.
    replace (nan <=? of_Z 0)%js with false by (vm_compute; reflexivity).
    replace (now env <? date td)%Z with false by (symmetry; apply Z.ltb_ge, Hdate).
    cbn [result_bind]. rewrite float_nan_lt_l. reflexivity. }
  split; [exact Hv|].
  assert (Hm : distributeProfit (amount td - cost)%js (profitDistribution s)
               = Ok (distribute_loop nan (profitDistribution s) ∅ nan)).
  { rewrite Hnan, float_nan_sub_l, distributeProfit_loop, Hvalid. reflexivity. }
  destruct (addTransaction_income env td s valid cost _ Hty Hv eq_refl Hcost Hm)
    as (s' & Hrun & Hs').
  exists s'. split; [exact Hrun|].
  intros d fund Hd Hfund. rewrite Hs', credit_allocation_lookup, Hfund.
  rewrite (distribute_loop_nan _ _ _ Hd). cbn [fmap option_fmap option_map].
  eexists. split; [reflexivity|].
  cbn [credited currentBalance lifetimeInflow].
  split; apply float_nan_add_r.
Qed.

(** In the default state an income of [NaN] turns the balance of the fund
    [personal] into [NaN]. *)
Lemma income_of_nan_poisons_funds_witness :
  exists s' fund',
    addTransaction env1 (income nan (of_Z 0)) (initial 0 : FinancialState float)
    = (Ok tt, s') /\
    funds s' !! "personal" = Some fund' /\ currentBalance fund' = nan.
Proof.
  destruct (income_of_nan_poisons_funds env1 (income nan (of_Z 0)) (initial 0)
              (of_Z 0))
    as (_ & s' & Hrun & Hfunds).
  - reflexivity.
  - reflexivity.
  - vm_compute. discriminate.
  - reflexivity.
  - vm_compute. reflexivity.
  - vm_compute. reflexivity.
  - destruct (Hfunds (share "personal" 25)
                (default_fund 0 "personal" "Personal" "Owner's salary" "#8B5CF6"
                   None))
      as (fund' & Hfund' & Hbalance & _).
    + unfold initial, DEFAULT_DISTRIBUTION. cbn [profitDistribution].
      do 2 apply list_elem_of_further. apply list_elem_of_here.
    + reflexivity.
    + exists s', fund'. auto.
Defined.

(** X9.  An EXPENSE whose amount is [NaN] passes [validateTransaction]
    likewise, whatever the balance of its source fund: [addTransaction]
    records it, and the balance and the lifetime outflow of that fund
    become [NaN]. *)
Theorem expense_of_nan_poisons_fund
    env (td : TransactionData float) (s : FinancialState float) id fund :
  type td = EXPENSE ->
  amount td = nan ->
  (date td <= now env)%Z ->
  sourceFundId td = Some id ->
  id <> EmptyString ->
  funds s !! id = Some fund ->
  validateTransaction (now env) td (funds s) = Ok valid /\
  exists s' fund',
    addTransaction env td s = (Ok tt, s') /\
    funds s' !! id = Some fund' /\
    currentBalance fund' = nan /\ lifetimeOutflow fund' = nan.
Proof.
  intros Hty Hnan Hdate Hid Hne Hfund.
  assert (Hv : validateTransaction (now env) td (funds s) = Ok valid).
  { unfold validateTransaction.
    rewrite Hty, Hid, Hnan. cbn [truthy].
    rewrite bool_decide_eq_false_2 by exact Hne. rewrite Hfund, float_nan_lt_r.
    replace (nan <=? of_Z 0)%js with false by (vm_compute; reflexivity).
    replace (now env <? date td)%Z with false by (symmetry; apply Z.ltb_ge, Hdate).
    reflexivity. }
  split; [exact Hv|].
  destruct (addTransaction_expense env td s valid Hty Hv eq_refl)
    as (id' & fund0 & s' & Hid' & Hfund0 & _ & Hrun & Hfunds).
  assert (id' = id) as -> by congruence.
  assert (fund0 = fund) as -> by congruence.
  exists s', (debit (now env) fund (amount td)).
  split; [exact Hrun|]. split; [rewrite Hfunds; apply lookup_insert_eq|].
  cbn [debit currentBalance lifetimeOutflow]. rewrite Hnan.
  split; [apply float_nan_sub_r|apply float_nan_add_r].
Qed.

(** In the default state, where the fund [personal] is empty, an expense
    of [NaN] from it is recorded. *)
Lemma expense_of_nan_poisons_fund_witness :
  exists s' fund',
    addTransaction env1 (expense nan "personal") (initial 0 : FinancialState float)
    = (Ok tt, s') /\
    funds s' !! "personal" = Some fund' /\ currentBalance fund' = nan.
Proof.
  destruct (expense_of_nan_poisons_fund env1 (expense nan "personal") (initial 0)
              "personal"
              (default_fund 0 "personal" "Personal" "Owner's salary" "#8B5CF6"
                 None))
    as (_ & s' & fund' & Hrun & Hfund' & Hbalance & _).
  - reflexivity.
  - reflexivity.
  - vm_compute. discriminate.
  - reflexivity.
  - discriminate.
  - reflexivity.
  - exists s', fund'. auto.
Defined.

(** *** Creating a fund and deleting it again *)

(** X10.  In a reachable state, a fund created under a new identifier can
    be deleted at once: [deleteFund] returns, and the funds and the
    transactions are those from before [createFund]; of the distribution
    the entries that named the identifier are gone, and the tax flag is as
    it was. *)
Theorem createFund_then_deleteFund
    env env' fd (s : FinancialState float) :
  reachable s ->
  funds s !! uuid env = None ->
  exists s',
    deleteFund env' (uuid env) (after (createFund env fd) s) = (Ok tt, s') /\
    funds s' = funds s /\
    transactions s' = transactions s /\
    profitDistribution s' =
      List.filter (fun d => negb (bool_decide (fundId d = uuid env)))
        (profitDistribution s) /\
    taxEnabled s' = taxEnabled s.
Proof.
  intros Hreach Hfresh.
  pose proof (reachable_sources_exist s Hreach) as Hsrc.
  assert (Href : existsb (references (uuid env)) (transactions s) = false).
  { destruct (existsb _ _) eqn:Hex; [|reflexivity].
    apply existsb_references in Hex as (t & Ht & Hexp & Hid).
    destruct (Hsrc t Ht Hexp) as (id & fund & Hid' & Hfund). congruence. }
  eexists. split.
  - unfold after, createFund, set. cbn [snd].
    erewrite deleteFund_existing by (cbn [funds]; apply lookup_insert_eq).
    cbn [currentBalance transactions].
    replace (of_Z 0 >? of_Z 0)%js with false by (vm_compute; reflexivity).
    rewrite Href. reflexivity.
  - cbn [funds transactions profitDistribution taxEnabled].
    split; [|auto]. rewrite delete_insert_eq. apply delete_id, Hfresh.
Qed.

(** A fund created in the state [spent] and deleted again leaves its
    funds. *)
Lemma createFund_then_deleteFund_witness :
  exists s',
    deleteFund env1 "id-1"
      (after (createFund env1
                {| name := "Travel"; fd_description := "Trips";
                   color := None; fd_isTaxFund := None |})
         (spent : FinancialState float))
    = (Ok tt, s') /\
    funds s' = funds (spent : FinancialState float).
Proof.
  destruct (createFund_then_deleteFund env1 env1
              {| name := "Travel"; fd_description := "Trips";
                 color := None; fd_isTaxFund := None |}
              (spent : FinancialState float))
    as (s' & Hrun & Hfunds & _).
  - exact reachable_spent.
  - vm_compute. reflexivity.
  - exists s'. split; [exact Hrun | exact Hfunds].
Defined.

(** ** Exact arithmetic *)

(** *** The totals of the funds *)

Lemma accumulate_swap (acc : Totals exact) (f1 f2 : Fund exact) :
  accumulate (accumulate acc f1) f2 = accumulate (accumulate acc f2) f1.
Proof.
  unfold accumulate. cbn [balance inflow outflow].
  f_equal; apply exact_add_swap.
Qed.

Lemma calculateFundTotals_insert (fs : gmap FundId (Fund exact)) id fund :
  fs !! id = None ->
  calculateFundTotals (<[id := fund]> fs) = accumulate (calculateFundTotals fs) fund.
Proof.
  intros Hid. unfold calculateFundTotals.
  apply (map_fold_insert_L (fun _ fund acc => accumulate acc fund)); [|exact Hid].
  intros. apply accumulate_swap.
Qed.

Lemma calculateFundTotals_delete (fs : gmap FundId (Fund exact)) id fund :
  fs !! id = Some fund ->
  calculateFundTotals fs = accumulate (calculateFundTotals (delete id fs)) fund.
Proof.
  intros Hid. unfold calculateFundTotals.
  apply (map_fold_delete_L (fun _ fund acc => accumulate acc fund)); [|exact Hid].
  intros. apply accumulate_swap.
Qed.

(** Replacing a fund: the totals without it, and the new fund. *)
Lemma calculateFundTotals_replace (fs : gmap FundId (Fund exact)) id fund fund' :
  fs !! id = Some fund ->
  calculateFundTotals (<[id := fund']> fs)
  = accumulate (calculateFundTotals (delete id fs)) fund'.
Proof.
  intros Hid. rewrite <- insert_delete_eq.
  apply calculateFundTotals_insert, lookup_delete_eq.
Qed.

Lemma exact_balanced_add (B I O b i o : exact) :
  B = (I - O)%js -> b = (i - o)%js -> (B + b = (I + i) - (O + o))%js.
Proof. intros -> ->. exact_ring. Qed.

(** Funds that are balanced one by one are balanced in total. *)
Lemma totals_balanced (fs : gmap FundId (Fund exact)) :
  (forall id fund, fs !! id = Some fund -> balanced fund) ->
  balance (calculateFundTotals fs)
  = (inflow (calculateFundTotals fs) - outflow (calculateFundTotals fs))%js.
Proof.
  induction fs as [|id fund fs Hid IH] using map_ind; intros Hfs.
  - unfold calculateFundTotals. rewrite map_fold_empty. apply exact_zero_balanced.
  - rewrite (calculateFundTotals_insert _ _ _ Hid).
    cbn [accumulate balance inflow outflow].
    apply exact_balanced_add.
    + apply IH. intros j f Hj. apply (Hfs j).
      rewrite lookup_insert_ne; [exact Hj|]. intros ->. congruence.
    + apply (Hfs id). apply lookup_insert_eq.
Qed.


Lemma reachable_spent_exact : reachable (spent : FinancialState exact).
Proof.
  apply reachable_step with earned.
  - apply reachable_step with (initial 0); [apply reachable_initial|].
    eapply step_addTransaction. apply after_ok. vm_compute. reflexivity.
  - eapply step_addTransaction. apply after_ok. vm_compute. reflexivity.
Defined.


(** *** The whole store *)

Lemma updated_balanced today (fund : Fund exact) (updates : FundUpdates exact) :
  set_currentBalance updates = None ->
  set_lifetimeInflow updates = None ->
  set_lifetimeOutflow updates = None ->
  balanced fund -> balanced (updated today fund updates).
Proof.
  unfold balanced, updated. cbn [currentBalance lifetimeInflow lifetimeOutflow].
  intros -> -> ->. auto.
Qed.

Lemma store_step_balanced boot (st st' : FinanceStore exact) :
  store_step boot st st' ->
  (forall id fund, funds (ledger st) !! id = Some fund -> balanced fund) ->
  forall id fund, funds (ledger st') !! id = Some fund -> balanced fund.
Proof.
  intros Hstep Hst.
  destruct Hstep as [Hstep _|env k updates Hb Hi Ho Hrun _|env bd ->|env k u ->
                    |env k ->|env ->]; try exact Hst.
  - apply (step_preserves balanced _ _
             credited_balanced debit_balanced zero_balanced Hstep Hst).
  - unfold updateFund in Hrun.
    destruct (funds (ledger st) !! k) as [fund0|] eqn:Hk; [|discriminate].
    injection Hrun as <-. cbn [funds]. intros id fund.
    destruct (decide (k = id)) as [->|Hne].
    + rewrite lookup_insert_eq. intros [= <-].
      apply updated_balanced; eauto.
    + rewrite lookup_insert_ne by exact Hne. apply Hst.
  - cbn [resetToDefaults ledger funds]. intros id fund Hid.
    apply DEFAULT_FUNDS_zero in Hid as (? & ? & ?). apply zero_balanced; auto.
Qed.



(** *** What a transaction does to the totals *)

Lemma exact_add_sub_assoc (D b a : exact) :
  (D + (b - a) = (D + b) - a)%js.
Proof. exact_ring. Qed.

Lemma exact_add_assoc (D b a : exact) :
  (D + (b + a) = (D + b) + a)%js.
Proof. exact_ring. Qed.



Lemma calculateFundTotals_credit today (fs : gmap FundId (Fund exact)) id a :
  is_Some (fs !! id) ->
  calculateFundTotals (credit today fs (id, a))
  = add_allocation (calculateFundTotals fs) a.
Proof.
  intros [fund Hfund]. unfold credit. rewrite Hfund.
  rewrite (calculateFundTotals_replace _ _ _ _ Hfund).
  rewrite (calculateFundTotals_delete _ _ _ Hfund).
  unfold add_allocation, accumulate.
  cbn [balance inflow outflow credited currentBalance lifetimeInflow
       lifetimeOutflow].
  f_equal; apply exact_add_assoc.
Qed.

Lemma credit_is_Some today (fs : gmap FundId (Fund exact)) entry id :
  is_Some (credit today fs entry !! id) <-> is_Some (fs !! id).
Proof.
  destruct entry as [k a]. unfold credit.
  destruct (fs !! k) as [fund|] eqn:Hk; [|reflexivity].
  destruct (decide (k = id)) as [->|Hne].
  - rewrite lookup_insert_eq, Hk. split; eauto.
  - rewrite lookup_insert_ne by exact Hne. reflexivity.
Qed.

Lemma calculateFundTotals_fold_credit today (l : list (FundId * exact)) :
  forall fs : gmap FundId (Fund exact),
    (forall id a, (id, a) ∈ l -> is_Some (fs !! id)) ->
    calculateFundTotals (fold_left (credit today) l fs)
    = fold_left add_allocation l.*2 (calculateFundTotals fs).
Proof.
  induction l as [|[k a] l IH]; intros fs Hl; [reflexivity|].
  cbn [fold_left fmap list_fmap snd]. rewrite IH.
  - rewrite calculateFundTotals_credit; [reflexivity|].
    apply (Hl k a). left.
  - intros id b Hin. apply credit_is_Some. apply (Hl id b). right. exact Hin.
Qed.

Lemma exact_add_add_swap (T x a : exact) :
  ((T + a) + x = T + (x + a))%js.
Proof. exact_ring. Qed.

Lemma fold_add_allocation (l : list (FundId * exact)) :
  forall acc : Totals exact,
    fold_left add_allocation l.*2 acc
    = {| balance := (balance acc
                     + foldr (uncurry (fun (_ : FundId) a x => x + a)) (of_Z 0) l)%js;
         inflow := (inflow acc
                    + foldr (uncurry (fun (_ : FundId) a x => x + a)) (of_Z 0) l)%js;
         outflow := outflow acc |}.
Proof.
  induction l as [|[k a] l IH]; intros acc.
  - destruct acc as [b i o]. cbn. f_equal; destruct b, i; try reflexivity;
      apply (f_equal Fin); change (Qc_of_Z 0) with 0%Qc; ring.
  - cbn [fold_left fmap list_fmap snd foldr uncurry]. rewrite IH.
    unfold add_allocation. cbn [balance inflow outflow].
    f_equal; apply exact_add_add_swap.
Qed.

(** The totals after the allocation of a profit has been credited, when
    every fund of the allocation exists. *)
Lemma calculateFundTotals_allocation today (m : gmap FundId exact)
    (fs : gmap FundId (Fund exact)) :
  (forall id, is_Some (m !! id) -> is_Some (fs !! id)) ->
  calculateFundTotals (fold_left (credit today) (map_to_list m) fs)
  = {| balance := (balance (calculateFundTotals fs) + allocated_total m)%js;
       inflow := (inflow (calculateFundTotals fs) + allocated_total m)%js;
       outflow := outflow (calculateFundTotals fs) |}.
Proof.
  intros Hm. rewrite calculateFundTotals_fold_credit.
  - rewrite fold_add_allocation. unfold allocated_total.
    rewrite map_fold_foldr. reflexivity.
  - intros id a Hin. apply Hm. apply elem_of_map_to_list in Hin. eauto.
Qed.

(** X14.  In exact arithmetic a valid INCOME whose profit is a whole
    number of cents adds exactly that profit to the total balance and to
    the total inflow of the funds, and nothing to the total outflow, when
    the distribution passes the check of its sum, names no fund twice, has
    no [NaN] percentage and names only funds that exist. *)
Theorem income_raises_totals_by_profit
    env (td : TransactionData exact) (s : FinancialState exact) v z :
  type td = INCOME ->
  validateTransaction (now env) td (funds s) = Ok v ->
  isValid v = true ->
  (amount td - assert_number (costOfProduction td))%js = decimal z 100 ->
  isValid (validateProfitDistribution (profitDistribution s)) = true ->
  NoDup (fundId <$> profitDistribution s) ->
  finite_percentages (profitDistribution s) ->
  (forall d, d ∈ profitDistribution s -> is_Some (funds s !! fundId d)) ->
  exists s',
    addTransaction env td s = (Ok tt, s') /\
    balance (calculateFundTotals (funds s'))
    = (balance (calculateFundTotals (funds s)) + decimal z 100)%js /\
    inflow (calculateFundTotals (funds s'))
    = (inflow (calculateFundTotals (funds s)) + decimal z 100)%js /\
    outflow (calculateFundTotals (funds s'))
    = outflow (calculateFundTotals (funds s)).
Proof.
  intros Hty Hv Hok Hprofit Hvalid Hnd Hfin Hfunds.
  destruct (validateTransaction_income _ _ _ _ Hty Hv Hok)
    as (cost & Hcost & Hp & _).
  rewrite Hcost in Hprofit. cbn [assert_number] in Hprofit.
  pose (m := distribute_loop (decimal z 100) (profitDistribution s) ∅ (decimal z 100)).
  assert (Hm : distributeProfit (decimal z 100) (profitDistribution s) = Ok m).
  { rewrite distributeProfit_loop, Hvalid. reflexivity. }
  assert (Htotal : allocated_total m = decimal z 100).
  { unfold m.
    rewrite (distribute_loop_total (decimal z 100) _ (decimal_finite z)).
    - unfold allocated_total. rewrite map_fold_empty. apply exact_add_zero.
    - apply validateProfitDistribution_nonempty, Hvalid.
    - exact Hnd.
    - intros d _. apply lookup_empty.
    - exact Hfin. }
  rewrite <- Hprofit in Hm.
  destruct (addTransaction_income env td s v cost m Hty Hv Hok Hcost Hm)
    as (s' & Hrun & Hs').
  exists s'. split; [exact Hrun|].
  rewrite Hs'.
  rewrite calculateFundTotals_allocation.
  + cbn [balance inflow outflow]. rewrite Htotal. auto.
  + intros id [a Ha].
    destruct (decide (id ∈ fundId <$> profitDistribution s)) as [Hin|Hout].
    * apply list_elem_of_fmap in Hin as (d & -> & Hd). apply Hfunds, Hd.
    * unfold m in Ha. rewrite distribute_loop_other in Ha by exact Hout.
      rewrite lookup_empty in Ha. discriminate.
Qed.

Lemma exact_Fin_eq (x y : Qc) : (this x == this y)%Q -> Fin x = Fin y.
Proof. intros H. f_equal. apply Qc_is_canon, H. Qed.

(** An income of 66.67 without cost in the default state. *)
Lemma income_raises_totals_by_profit_witness :
  exists s' : FinancialState exact,
    addTransaction env1 (income (decimal 6667 100) (of_Z 0)) (initial 0)
    = (Ok tt, s') /\
    balance (calculateFundTotals (funds s'))
    = (balance (calculateFundTotals (funds (initial 0 : FinancialState exact)))
       + decimal 6667 100)%js.
Proof.
  destruct (income_raises_totals_by_profit env1
              (income (decimal 6667 100) (of_Z 0)) (initial 0) valid 6667)
    as (s' & Hrun & Hbalance & _).
  - reflexivity.
  - vm_compute. reflexivity.
  - reflexivity.
  - rewrite decimal_exact. apply exact_Fin_eq. vm_compute. reflexivity.
  - vm_compute. reflexivity.
  - apply (bool_decide_unpack _). vm_compute. reflexivity.
  - repeat constructor; discriminate.
  - intros d Hd. unfold initial, DEFAULT_DISTRIBUTION in Hd.
    cbn [profitDistribution] in Hd.
    repeat (apply elem_of_cons in Hd as [->|Hd]; [eexists; reflexivity|]).
    apply elem_of_nil in Hd. contradiction.
  - exists s'. split; [exact Hrun | exact Hbalance].
Defined.

(** *** An expense never overdraws *)

Lemma exact_sub_not_negative (b a : exact) :
  (b <? a)%js = false -> (b - a <? of_Z 0)%js = false.
Proof.
  destruct b as [b|], a as [a|]; try reflexivity.
  change (Fin b - Fin a)%js with (Fin (b - a)).
  change (of_Z 0 : exact) with (Fin (Qc_of_Z 0)).
  intros Hba. destruct (Fin (b - a) <? Fin (Qc_of_Z 0))%js eqn:H; [|reflexivity].
  apply exact_lt_spec in H.
  assert (Hlt : (Fin b <? Fin a)%js = true); [|congruence].
  apply exact_lt_spec. rewrite Qc_of_Z_0 in H.
  apply Qclt_minus_iff. apply Qclt_minus_iff in H.
  replace (a + - b)%Qc with (0 + - (b - a))%Qc by ring. exact H.
Qed.



(** *** A fund named twice *)

Lemma allocated_total_overwrite (m : gmap FundId exact) k old a :
  m !! k = Some old ->
  (allocated_total (<[k := a]> m) + old = allocated_total m + a)%js.
Proof.
  intros Hk. rewrite <- insert_delete_eq.
  rewrite allocated_total_insert by apply lookup_delete_eq.
  unfold allocated_total at 2.
  rewrite (map_fold_delete_L (fun _ a acc => (acc + a)%js) _ k old m);
    [|intros; apply exact_add_swap|exact Hk].
  apply exact_add_swap.
Qed.

Lemma exact_cents_split (t : exact) z k :
  ((t + decimal k 100) + decimal (z - k) 100 = t + decimal z 100)%js.
Proof.
  rewrite <- cents_sub, (decimal_exact k). apply exact_add_sub_cancel.
Qed.

(** The loop over entries of distinct new funds followed by a last entry
    whose fund is in [result] already: the amount that was there is
    replaced, and with it the total is what [remaining] held. *)
Lemma distribute_loop_total_replaced (profit : exact) :
  profit <> NaN ->
  forall (init : list (ProfitDistribution exact)) l result z old,
    NoDup (fundId <$> init) ->
    (forall d, d ∈ init -> result !! fundId d = None) ->
    fundId l ∉ fundId <$> init ->
    result !! fundId l = Some old ->
    finite_percentages init ->
    (allocated_total (distribute_loop profit (init ++ [l]) result (decimal z 100))
     + old = allocated_total result + decimal z 100)%js.
Proof.
  intros Hp. induction init as [|d init IH];
    intros l result z old Hnd Hfresh Hl Hold Hfin.
  - cbn [app]. rewrite distribute_loop_single, round2_cents.
    apply allocated_total_overwrite, Hold.
  - rewrite fmap_cons in Hnd, Hl. apply NoDup_cons in Hnd as [Hd Hnd].
    apply not_elem_of_cons in Hl as [Hne Hl].
    apply Forall_cons in Hfin as [Hpd Hfin].
    cbn [app]. destruct (app_last_cons init l) as (d' & rest & Heq).
    rewrite Heq, distribute_loop_cons, <- Heq.
    destruct (share_of_cents profit d Hp Hpd) as [k Hk]. rewrite Hk, cents_sub.
    rewrite (IH l _ (z - k) old Hnd); [| |exact Hl| |exact Hfin].
    + rewrite allocated_total_insert by (apply Hfresh; left).
      apply exact_cents_split.
    + intros d'' Hd''. rewrite lookup_insert_ne.
      * apply Hfresh. right. exact Hd''.
      * intros Heq'. apply Hd. rewrite Heq'. apply list_elem_of_fmap. eauto.
    + rewrite lookup_insert_ne by congruence. exact Hold.
Qed.

(** The same when the fund of the last entry is that of [d0], one of the
    entries before it. *)
Lemma distribute_loop_total_dup (profit : exact) :
  profit <> NaN ->
  forall (init : list (ProfitDistribution exact)) l d0 result z,
    NoDup (fundId <$> init) ->
    (forall d, d ∈ init -> result !! fundId d = None) ->
    d0 ∈ init ->
    fundId l = fundId d0 ->
    finite_percentages init ->
    (allocated_total (distribute_loop profit (init ++ [l]) result (decimal z 100))
     + share_of profit d0 = allocated_total result + decimal z 100)%js.
Proof.
  intros Hp. induction init as [|d init IH];
    intros l d0 result z Hnd Hfresh Hd0 Hl Hfin.
  - apply elem_of_nil in Hd0. contradiction.
  - rewrite fmap_cons in Hnd. apply NoDup_cons in Hnd as [Hd Hnd].
    apply Forall_cons in Hfin as [Hpd Hfin].
    cbn [app]. destruct (app_last_cons init l) as (d' & rest & Heq).
    rewrite Heq, distribute_loop_cons, <- Heq.
    destruct (share_of_cents profit d Hp Hpd) as [k Hk].
    assert (Hfresh' : forall d'', d'' ∈ init ->
              <[fundId d := share_of profit d]> result !! fundId d'' = None).
    { intros d'' Hd''. rewrite lookup_insert_ne.
      - apply Hfresh. right. exact Hd''.
      - intros Heq'. apply Hd. rewrite Heq'. apply list_elem_of_fmap. eauto. }
    apply elem_of_cons in Hd0 as [->|Hd0].
    + rewrite Hk at 2. rewrite cents_sub.
      rewrite (distribute_loop_total_replaced profit Hp init l _ (z - k)
                 (share_of profit d) Hnd Hfresh').
      * rewrite allocated_total_insert by (apply Hfresh; left).
        rewrite Hk. apply exact_cents_split.
      * rewrite Hl. exact Hd.
      * rewrite Hl. apply lookup_insert_eq.
      * exact Hfin.
    + rewrite Hk at 2. rewrite cents_sub.
      rewrite (IH l d0 _ (z - k) Hnd Hfresh' Hd0 Hl Hfin).
      rewrite allocated_total_insert by (apply Hfresh; left).
      rewrite Hk. apply exact_cents_split.
Qed.



(** X17.  The default distribution has an entry for the fund [taxes]
    already, and enabling the tax fund on it appends a second one.  The
    distribution that results passes the check of its sum, and of every
    profit that is a whole number of cents it loses, in exact arithmetic,
    the share of the first entry, which enabling has scaled to 4.75%: the
    amounts allocated and that share together sum to the profit. *)
Theorem enabling_tax_on_default_distribution_loses_share
    env (s : FinancialState exact) (z : Z) :
  profitDistribution s = DEFAULT_DISTRIBUTION ->
  let s' := after (toggleTaxFund env true) s in
  let profit : exact := decimal z 100 in
  fundId <$> profitDistribution s'
  = (fundId <$> (DEFAULT_DISTRIBUTION : list (ProfitDistribution exact)))
    ++ ["taxes"] /\
  isValid (validateProfitDistribution (profitDistribution s')) = true /\
  exists m,
    distributeProfit profit (profitDistribution s') = Ok m /\
    (allocated_total m + round2 (profit * decimal 475 100 / of_Z 100) = profit)%js.
Proof.
  intros Hds s' profit.
  assert (Hs' : profitDistribution s' =
            map (rescale (total_percentage DEFAULT_DISTRIBUTION) (of_Z 95))
              DEFAULT_DISTRIBUTION
            ++ [{| fundId := "taxes"; percentage := of_Z 5 |}]).
  { unfold s', after. rewrite toggleTaxFund_runs. cbn [snd profitDistribution].
    rewrite Hds. reflexivity. }
  rewrite Hs'. split; [|split].
  - rewrite fmap_app, rescale_fundIds. reflexivity.
  - vm_compute. reflexivity.
  - eexists. split.
    + rewrite distributeProfit_loop.
      replace (isValid (validateProfitDistribution _)) with true
        by (vm_compute; reflexivity).
      reflexivity.
    + pose (d0 := rescale (total_percentage DEFAULT_DISTRIBUTION) (of_Z 95)
                    (share "taxes" 5 : ProfitDistribution exact)).
      replace (round2 (profit * decimal 475 100 / of_Z 100)%js)
        with (share_of profit d0).
      * unfold profit.
        rewrite (distribute_loop_total_dup (decimal z 100) (decimal_finite z)
                   _ _ d0 ∅ z).
        -- unfold allocated_total. rewrite map_fold_empty. apply exact_add_zero.
        -- rewrite rescale_fundIds. apply (bool_decide_unpack _).
           vm_compute. reflexivity.
        -- intros d _. apply lookup_empty.
        -- apply list_elem_of_In, in_map, list_elem_of_In.
           unfold DEFAULT_DISTRIBUTION.
           do 7 apply list_elem_of_further. apply list_elem_of_here.
        -- reflexivity.
        -- repeat constructor; discriminate.
      * unfold share_of. do 3 f_equal.
Qed.

(** A profit of 100 after the tax fund has been enabled in the default
    state. *)
Lemma enabling_tax_on_default_distribution_loses_share_witness :
  exists m : gmap FundId exact,
    distributeProfit (decimal 10000 100)
      (profitDistribution (after (toggleTaxFund env1 true) (initial 0))) = Ok m /\
    (allocated_total m
     + round2 (decimal 10000 100 * decimal 475 100 / of_Z 100)
     = decimal 10000 100)%js.
Proof.
  destruct (enabling_tax_on_default_distribution_loses_share env1 (initial 0)
              10000 eq_refl)
    as (_ & _ & m & Hm & Htotal).
  exists m. split; [exact Hm | exact Htotal].
Defined.

(** *** The total after a toggle *)

Lemma total_percentage_app_taxes (ds : list (ProfitDistribution exact)) :
  total_percentage ds = of_Z 95 ->
  total_percentage (ds ++ [{| fundId := "taxes"; percentage := of_Z 5 |}])
  = of_Z 100.
Proof.
  unfold total_percentage. intros H. rewrite fold_left_app, H.
  cbn [fold_left percentage]. apply exact_Fin_eq. reflexivity.
Qed.

Lemma valid_100 (ds : list (ProfitDistribution exact)) :
  total_percentage ds = of_Z 100 ->
  isValid (validateProfitDistribution ds) = true.
Proof.
  unfold validateProfitDistribution. intros ->. vm_compute. reflexivity.
Qed.

(** X18.  In exact arithmetic, when the total [t] of the entries that a
    toggle rescales is a number other than zero, the distribution that the
    toggle stores has the total 100 exactly, whatever [t] was, and passes
    the check of the sum. *)
Theorem toggleTaxFund_total_is_100 env enabled (s : FinancialState exact) t :
  total_percentage (rescaled_entries enabled (profitDistribution s)) = Fin t ->
  t <> 0%Qc ->
  let s' := after (toggleTaxFund env enabled) s in
  total_percentage (profitDistribution s') = of_Z 100 /\
  isValid (validateProfitDistribution (profitDistribution s')) = true.
Proof.
  intros Ht Ht0 s'.
  assert (H100 : total_percentage (profitDistribution s') = of_Z 100).
  { pose proof (fold_total_finite_inv _ _ _ Ht) as Hfin.
    unfold s', after. rewrite toggleTaxFund_runs. cbn [snd profitDistribution].
    destruct enabled; cbn [rescaled_entries] in *.
    - apply total_percentage_app_taxes. rewrite Ht.
      apply (total_percentage_rescale t (Qc_of_Z 95) _ Ht0 Hfin Ht).
    - cbv zeta. rewrite Ht.
      apply (total_percentage_rescale t (Qc_of_Z 100) _ Ht0 Hfin Ht). }
  split; [exact H100|]. apply valid_100, H100.
Qed.

(** A distribution with the total 70, which fails the check, passes it
    once the tax fund has been enabled. *)
Lemma toggleTaxFund_total_is_100_witness :
  let s : FinancialState exact := state_with ∅ [] [share "A" 30; share "B" 40] in
  isValid (validateProfitDistribution (profitDistribution s)) = false /\
  isValid (validateProfitDistribution
             (profitDistribution (after (toggleTaxFund env1 true) s))) = true.
Proof.
  cbv zeta. split; [vm_compute; reflexivity|].
  refine (proj2 (toggleTaxFund_total_is_100 env1 true
                   (state_with ∅ [] [share "A" 30; share "B" 40])
                   (Qc_of_Z 70) _ _)).
  - apply exact_Fin_eq. vm_compute. reflexivity.
  - intros H. apply Q2Qc_eq_iff in H. discriminate H.
Defined.

(** *** Deleting a fund that has a share *)

Lemma fold_total_shift (ds : list (ProfitDistribution exact)) (c : Qc) :
  forall a x,
    fold_left (fun sum d => (sum + percentage d)%js) ds (Fin a) = Fin x ->
    fold_left (fun sum d => (sum + percentage d)%js) ds (Fin (a + c)) = Fin (x + c).
Proof.
  induction ds as [|d ds IH]; intros a x Hx.
  - cbn in *. congruence.
  - cbn [fold_left] in *. destruct (percentage d) as [p|].
    + change (Fin a + Fin p)%js with (Fin (a + p)) in Hx.
      change (Fin (a + c) + Fin p)%js with (Fin (a + c + p)).
      replace (a + c + p)%Qc with (a + p + c)%Qc by ring.
      apply IH, Hx.
    + change (Fin a + NaN)%js with NaN in Hx.
      rewrite fold_total_NaN in Hx. discriminate.
Qed.

Lemma filter_other_funds (id : FundId) (ds : list (ProfitDistribution exact)) :
  id ∉ fundId <$> ds ->
  List.filter (fun d => negb (bool_decide (fundId d = id))) ds = ds.
Proof.
  induction ds as [|d ds IH]; intros Hid; [reflexivity|].
  rewrite fmap_cons in Hid. apply not_elem_of_cons in Hid as [Hne Hid].
  cbn [List.filter]. rewrite bool_decide_eq_false_2 by congruence.
  cbn [negb]. f_equal. apply IH, Hid.
Qed.

(** Without the entry of a fund that is named once, the total is less by
    its percentage. *)
Lemma fold_total_remove (ds : list (ProfitDistribution exact)) d p :
  NoDup (fundId <$> ds) ->
  d ∈ ds ->
  percentage d = Fin p ->
  forall a t,
    fold_left (fun sum d => (sum + percentage d)%js) ds (Fin a) = Fin t ->
    fold_left (fun sum d => (sum + percentage d)%js)
      (List.filter (fun d' => negb (bool_decide (fundId d' = fundId d))) ds) (Fin a)
    = Fin (t - p).
Proof.
  induction ds as [|d1 ds IH]; intros Hnd Hd Hp a t Ht.
  - apply elem_of_nil in Hd. contradiction.
  - rewrite fmap_cons in Hnd. apply NoDup_cons in Hnd as [Hd1 Hnd].
    cbn [List.filter]. apply elem_of_cons in Hd as [->|Hd].
    + rewrite bool_decide_eq_true_2 by reflexivity. cbn [negb].
      rewrite filter_other_funds by exact Hd1.
      cbn [fold_left] in Ht. rewrite Hp in Ht.
      change (Fin a + Fin p)%js with (Fin (a + p)) in Ht.
      replace a with (a + p + - p)%Qc by ring.
      replace (t - p)%Qc with (t + - p)%Qc by ring.
      apply fold_total_shift, Ht.
    + rewrite bool_decide_eq_false_2.
      * cbn [negb fold_left] in *.
        destruct (percentage d1) as [q|].
        -- apply (IH Hnd Hd Hp). exact Ht.
        -- change (Fin a + NaN)%js with NaN in Ht.
           rewrite fold_total_NaN in Ht. discriminate.
      * intros Heq. apply Hd1. rewrite Heq. apply list_elem_of_fmap. eauto.
Qed.

(** A total within the tolerance of 100 leaves it when more than 0.02 is
    taken off. *)
Lemma exact_off_tolerance (t p : Qc) :
  (Math_abs (Fin t - of_Z 100) >? decimal 1 100)%js = false ->
  (decimal 2 100 <? Fin p)%js = true ->
  (Math_abs (Fin (t - p) - of_Z 100) >? decimal 1 100)%js = true.
Proof.
  rewrite !decimal_exact.
  change (of_Z 100 : exact) with (Fin (Qc_of_Z 100)).
  change (Fin t - Fin (Qc_of_Z 100))%js with (Fin (t - Qc_of_Z 100)).
  change (Fin (t - p) - Fin (Qc_of_Z 100))%js with (Fin (t - p - Qc_of_Z 100)).
  cbn [Math_abs exact_Number exact_abs].
  intros Hin Hp. apply exact_lt_spec in Hp. apply exact_lt_spec.
  assert (Hle : ~ (Qc_of_Z 1 / Qc_of_Z 100 <
                   (if Qclt_le_dec (t - Qc_of_Z 100) 0
                    then - (t - Qc_of_Z 100) else t - Qc_of_Z 100))%Qc).
  { intros H. apply exact_lt_spec in H. congruence. }
  clear Hin.
  assert (H1 : (this (Qc_of_Z 1 / Qc_of_Z 100)%Qc == 1 # 100)%Q)
    by (vm_compute; reflexivity).
  assert (H2 : (this (Qc_of_Z 2 / Qc_of_Z 100)%Qc == 2 # 100)%Q)
    by (vm_compute; reflexivity).
  assert (H100 : (Qc_of_Z 100 == 100)%Q) by (vm_compute; reflexivity).
  unfold Qclt in *.
  destruct (Qclt_le_dec (t - Qc_of_Z 100) 0) as [Hneg|Hpos];
    destruct (Qclt_le_dec (t - p - Qc_of_Z 100) 0) as [Hneg'|Hpos'];
    unfold Qclt, Qcle in *;
    rewrite ?H1, ?H2 in *;
    repeat (cbn [this Qcminus Qcplus Qcopp Q2Qc] in *;
            rewrite ?Qred_correct in *);
    rewrite ?H100 in *; change (this 0%Qc) with 0%Q in *; lra.
Qed.

(** X19.  [deleteFund] removes the entries of the fund from the
    distribution and leaves the others as they are.  In exact arithmetic,
    when the distribution passed the check of its sum, named no fund twice
    and gave the fund more than 0.02, the distribution that is left has the
    total less that percentage and fails the check: every INCOME that is
    valid is from then on refused with the message of the check, and
    changes nothing. *)
Theorem deleteFund_leaves_distribution_short
    env id (s s' : FinancialState exact) d t p :
  deleteFund env id s = (Ok tt, s') ->
  total_percentage (profitDistribution s) = Fin t ->
  isValid (validateProfitDistribution (profitDistribution s)) = true ->
  NoDup (fundId <$> profitDistribution s) ->
  d ∈ profitDistribution s ->
  fundId d = id ->
  percentage d = Fin p ->
  (decimal 2 100 <? Fin p)%js = true ->
  total_percentage (profitDistribution s') = Fin (t - p) /\
  isValid (validateProfitDistribution (profitDistribution s')) = false /\
  forall env' (td : TransactionData exact) v,
    type td = INCOME ->
    validateTransaction (now env') td (funds s') = Ok v ->
    isValid v = true ->
    addTransaction env' td s'
    = (Throw (Error (SumMsg (Fin (t - p)))), s').
Proof.
  intros Hrun Ht Hvalid Hnd Hd Hid Hp Hbig.
  apply deleteFund_ok in Hrun as (fund & _ & _ & _ & Hs').
  assert (Hds : profitDistribution s' =
            List.filter (fun d' => negb (bool_decide (fundId d' = id)))
              (profitDistribution s)) by (rewrite Hs'; reflexivity).
  clear Hs'.
  assert (Ht' : total_percentage (profitDistribution s') = Fin (t - p)).
  { rewrite Hds, <- Hid. unfold total_percentage in *.
    change (of_Z 0 : exact) with (Fin (Qc_of_Z 0)) in *.
    apply (fold_total_remove _ d p Hnd Hd Hp _ _ Ht). }
  assert (Hinvalid :
            isValid (validateProfitDistribution (profitDistribution s')) = false).
  { unfold validateProfitDistribution in *. rewrite Ht'. rewrite Ht in Hvalid.
    rewrite exact_off_tolerance; [reflexivity| |exact Hbig].
    destruct (Math_abs (Fin t - of_Z 100) >? decimal 1 100)%js;
      [discriminate|reflexivity]. }
  split; [exact Ht'|]. split; [exact Hinvalid|].
  intros env' td v Hty Hv Hok.
  destruct (addTransaction_run env' td s' v Hv Hok) as [_ Hincome].
  destruct (Hincome Hty) as [_ Hthrow].
  rewrite (Hthrow Hinvalid), Ht'. reflexivity.
Qed.

(** After the fund [baby], with its 5%, has been deleted from the default
    state, an income of 100 is refused. *)
Lemma deleteFund_leaves_distribution_short_witness :
  exists (s' : FinancialState exact) total,
    deleteFund env1 "baby" (initial 0) = (Ok tt, s') /\
    addTransaction env1 (income (of_Z 100) (of_Z 0)) s'
    = (Throw (Error (SumMsg total)), s').
Proof.
  destruct (deleteFund_leaves_distribution_short env1 "baby" (initial 0)
              (after (deleteFund env1 "baby") (initial 0))
              (share "baby" 5) (Qc_of_Z 100) (Qc_of_Z 5))
    as (_ & _ & Hrefused).
  - apply after_ok. vm_compute. reflexivity.
  - apply exact_Fin_eq. vm_compute. reflexivity.
  - vm_compute. reflexivity.
  - apply (bool_decide_unpack _). vm_compute. reflexivity.
  - unfold initial, DEFAULT_DISTRIBUTION. cbn [profitDistribution].
    do 4 apply list_elem_of_further. apply list_elem_of_here.
  - reflexivity.
  - reflexivity.
  - vm_compute. reflexivity.
  - exists (after (deleteFund env1 "baby") (initial 0)), (Fin (Qc_of_Z 100 - Qc_of_Z 5)).
    split; [apply after_ok; vm_compute; reflexivity|].
    apply (Hrefused env1 (income (of_Z 100) (of_Z 0)) valid).
    + reflexivity.
    + vm_compute. reflexivity.
    + reflexivity.
Defined.

(** *** Saving a distribution *)

Lemma saved_entries_positive (l : list (FundId * exact)) :
  Forall (fun d => (percentage d >? of_Z 0)%js = true)
    (List.filter (fun d => percentage d >? of_Z 0)%js
       (map (fun '(id, p) => {| fundId := id; percentage := p |}) l)).
Proof.
  apply Forall_forall. intros d Hd. apply list_elem_of_In in Hd.
  apply filter_In in Hd as [_ Hd]. exact Hd.
Qed.

Lemma saved_entries_NoDup (l : list (FundId * exact)) :
  NoDup l.*1 ->
  NoDup (fundId <$>
           List.filter (fun d => percentage d >? of_Z 0)%js
             (map (fun '(id, p) => {| fundId := id; percentage := p |}) l)).
Proof.
  induction l as [|[id p] l IH]; intros Hnd; [constructor|].
  rewrite fmap_cons in Hnd. apply NoDup_cons in Hnd as [Hid Hnd].
  cbn [map List.filter percentage].
  destruct (of_Z 0 <? p)%js; [|apply IH, Hnd].
  rewrite fmap_cons. apply NoDup_cons. split; [|apply IH, Hnd].
  cbn [fundId]. intros Hin. apply Hid.
  apply list_elem_of_fmap in Hin as (d & -> & Hd).
  apply list_elem_of_In, filter_In in Hd as [Hd _].
  apply in_map_iff in Hd as ([id' p'] & <- & Hin).
  apply list_elem_of_fmap. exists (id', p'). split; [reflexivity|].
  apply list_elem_of_In, Hin.
Qed.

(** X20.  [handleSaveDistribution] of the settings page either shows the
    message of the check of the sum and leaves the state as it was, or
    replaces the distribution, and nothing else, by the entries of the form
    that are above zero.  What it stores names no fund twice and has only
    percentages above zero, and in exact arithmetic allocates every profit
    that is a whole number of cents completely: the amounts sum to the
    profit. *)
Theorem handleSaveDistribution_saves_a_conserving_distribution
    env (distributionValues : list (FundId * exact)) (s : FinancialState exact) :
  NoDup distributionValues.*1 ->
  (exists total,
     handleSaveDistribution env distributionValues s
     = (Ok (Some (SumMsg total)), s)) \/
  (exists s',
     handleSaveDistribution env distributionValues s
     = (Ok (Some (Msg "Profit distribution updated successfully!")), s') /\
     funds s' = funds s /\ transactions s' = transactions s /\
     taxEnabled s' = taxEnabled s /\
     Forall (fun d => (percentage d >? of_Z 0)%js = true) (profitDistribution s') /\
     NoDup (fundId <$> profitDistribution s') /\
     forall z : Z,
       exists m,
         distributeProfit (decimal z 100) (profitDistribution s') = Ok m /\
         allocated_total m = decimal z 100).
Proof.
  intros Hnd. unfold handleSaveDistribution. cbv zeta.
  set (ds := List.filter _ _).
  destruct (isValid (validateProfitDistribution ds)) eqn:Hvalid; cbn [negb].
  - right. eexists. split; [reflexivity|].
    cbn [funds transactions taxEnabled profitDistribution].
    split; [reflexivity|]. split; [reflexivity|]. split; [reflexivity|].
    pose proof (saved_entries_positive distributionValues) as Hpos.
    pose proof (saved_entries_NoDup distributionValues Hnd) as Hids.
    fold ds in Hpos, Hids.
    split; [exact Hpos|]. split; [exact Hids|].
    intros z. exists (distribute_loop (decimal z 100) ds ∅ (decimal z 100)).
    split; [rewrite distributeProfit_loop, Hvalid; reflexivity|].
    rewrite (distribute_loop_total (decimal z 100) _ (decimal_finite z)).
    + unfold allocated_total. rewrite map_fold_empty. apply exact_add_zero.
    + apply validateProfitDistribution_nonempty, Hvalid.
    + exact Hids.
    + intros d _. apply lookup_empty.
    + eapply Forall_impl; [exact Hpos|]. intros d Hd Hnan. cbv beta in Hd.
      rewrite Hnan in Hd. discriminate.
  - left. unfold validateProfitDistribution in *.
    destruct (Math_abs _ >? _)%js; [|discriminate].
    eexists. reflexivity.
Qed.

(** A form with 60 for [A], 40 for [B] and nothing for [C] is saved as the
    two entries of [A] and [B], which allocate a profit of 66.67 whole. *)
Lemma handleSaveDistribution_saves_a_conserving_distribution_witness :
  profitDistribution
    (after (handleSaveDistribution env1
              [("A", of_Z 60); ("B", of_Z 40); ("C", of_Z 0)])
       (three_funds : FinancialState exact))
  = [share "A" 60; share "B" 40] /\
  exists m,
    distributeProfit (decimal 6667 100 : exact) [share "A" 60; share "B" 40]
    = Ok m /\
    allocated_total m = decimal 6667 100.
Proof.
  split; [reflexivity|].
  destruct (handleSaveDistribution_saves_a_conserving_distribution env1
              [("A", of_Z 60); ("B", of_Z 40); ("C", of_Z 0)] three_funds)
    as [[total Hfail]|(s' & Hrun & _ & _ & _ & _ & _ & Hconserves)].
  - apply (bool_decide_unpack _). vm_compute. reflexivity.
  - discriminate Hfail.
  - injection Hrun as <-. exact (Hconserves 6667).
Defined.

(** *** The mark of the total *)

(** Entries that are not above zero and not negative are zero, and leaving
    them out does not change the total. *)
Lemma fold_total_saved (l : list (FundId * exact)) :
  Forall (fun entry => (entry.2 <? of_Z 0)%js = false) l ->
  forall a x,
    fold_left (fun sum val => (sum + val)%js) l.*2 (Fin a) = Fin x ->
    fold_left (fun sum d => (sum + percentage d)%js)
      (List.filter (fun d => percentage d >? of_Z 0)%js
         (map (fun '(id, p) => {| fundId := id; percentage := p |}) l))
      (Fin a)
    = Fin x.
Proof.
  induction 1 as [|[id p] l Hp _ IH]; intros a x Hx; [exact Hx|].
  cbn [fmap list_fmap snd fold_left map List.filter percentage] in *.
  destruct p as [q|].
  - change (Fin a + Fin q)%js with (Fin (a + q)) in Hx.
    destruct (of_Z 0 <? Fin q)%js eqn:Hpos.
    + cbn [fold_left percentage].
      change (Fin a + Fin q)%js with (Fin (a + q)). apply IH, Hx.
    + apply IH. replace a with (a + q)%Qc; [exact Hx|].
      assert (Hq : q = 0%Qc); [|rewrite Hq; ring].
      change (of_Z 0 : exact) with (Fin (Qc_of_Z 0)) in *.
      rewrite Qc_of_Z_0 in *.
      destruct (Qc_dec q 0) as [[Hlt|Hgt]|Heq]; [| |exact Heq].
      * apply exact_lt_spec in Hlt. cbn [snd] in Hp. congruence.
      * apply exact_lt_spec in Hgt. congruence.
  - change (Fin a + NaN)%js with NaN in Hx.
    assert (Hnan : forall l : list exact,
              fold_left (fun sum val => (sum + val)%js) l NaN = NaN).
    { clear. induction l as [|v l IH]; [reflexivity|]. exact IH. }
    rewrite Hnan in Hx. discriminate.
Qed.

Lemma exact_lt_asym (x y : exact) : (x <? y)%js = true -> (y <? x)%js = false.
Proof.
  destruct x as [x|], y as [y|]; try discriminate. intros H.
  destruct (Fin y <? Fin x)%js eqn:H'; [|reflexivity].
  apply exact_lt_spec in H. apply exact_lt_spec in H'.
  destruct (Qclt_not_le _ _ H). apply Qclt_le_weak, H'.
Qed.

(** X21.  In exact arithmetic, when no value of the form is negative and
    the settings page marks the total as right, [handleSaveDistribution]
    does not refuse: it stores the entries that are above zero, which have
    the total that the page shows. *)
Theorem marked_total_is_saved
    env (distributionValues : list (FundId * exact)) (s : FinancialState exact) :
  Forall (fun entry => (entry.2 <? of_Z 0)%js = false) distributionValues ->
  total_marked_right distributionValues = true ->
  exists s',
    handleSaveDistribution env distributionValues s
    = (Ok (Some (Msg "Profit distribution updated successfully!")), s') /\
    total_percentage (profitDistribution s') = totalPercentage distributionValues.
Proof.
  intros Hpos Hmark. unfold total_marked_right in Hmark.
  destruct (totalPercentage distributionValues) as [x|] eqn:Hx; [|discriminate].
  assert (Hsaved :
            total_percentage
              (List.filter (fun d => percentage d >? of_Z 0)%js
                 (map (fun '(id, p) => {| fundId := id; percentage := p |})
                    distributionValues)) = Fin x).
  { unfold total_percentage, totalPercentage in *.
    change (of_Z 0 : exact) with (Fin (Qc_of_Z 0)) in *.
    apply (fold_total_saved _ Hpos _ _ Hx). }
  unfold handleSaveDistribution. cbv zeta.
  unfold validateProfitDistribution at 1. rewrite Hsaved.
  rewrite (exact_lt_asym _ _ Hmark). cbn [isValid valid negb].
  eexists. split; [reflexivity|]. exact Hsaved.
Qed.

(** A form with 60, 40 and 0 is marked and saved. *)
Lemma marked_total_is_saved_witness :
  exists s' : FinancialState exact,
    handleSaveDistribution env1 [("A", of_Z 60); ("B", of_Z 40); ("C", of_Z 0)]
      three_funds
    = (Ok (Some (Msg "Profit distribution updated successfully!")), s').
Proof.
  destruct (marked_total_is_saved env1
              [("A", of_Z 60); ("B", of_Z 40); ("C", of_Z 0)] three_funds)
    as (s' & Hrun & _).
  - repeat constructor.
  - vm_compute. reflexivity.
  - exists s'. exact Hrun.
Defined.

(** With a negative value the mark and the save part ways: 120 and -20 are
    marked as right, and refused, what would be saved being 120 alone. *)
Example marked_total_with_negative_value_is_refused :
  let form : list (FundId * exact) := [("A", of_Z 120); ("B", of_Z (-20))] in
  total_marked_right form = true /\
  exists total,
    handleSaveDistribution env1 form three_funds
    = (Ok (Some (SumMsg total)), three_funds).
Proof.
  cbv zeta. split; [vm_compute; reflexivity|]. eexists. reflexivity.
Qed.

(** ** After a save, in every arithmetic *)

Section Saved.

Context {num : Type} `{!Number num}.

Local Open Scope js_scope.

(** X22.  What [handleSaveDistribution] has saved passes the check of the
    sum: in the state it leaves, [addTransaction] applies every request
    that [validateTransaction] accepts, INCOME or EXPENSE. *)
Theorem saved_distribution_accepts_valid_transactions
    env (distributionValues : list (FundId * num)) (s s' : FinancialState num) :
  handleSaveDistribution env distributionValues s
  = (Ok (Some (Msg "Profit distribution updated successfully!")), s') ->
  isValid (validateProfitDistribution (profitDistribution s')) = true /\
  funds s' = funds s /\
  forall env' (td : TransactionData num) v,
    validateTransaction (now env') td (funds s') = Ok v ->
    isValid v = true ->
    exists s'', addTransaction env' td s' = (Ok tt, s'').
Proof.
  unfold handleSaveDistribution. cbv zeta.
  set (ds := List.filter _ _).
  destruct (isValid (validateProfitDistribution ds)) eqn:Hvalid; cbn [negb].
  - intros [= Hs'].
    assert (Hds : profitDistribution s' = ds) by (rewrite <- Hs'; reflexivity).
    assert (Hfs : funds s' = funds s) by (rewrite <- Hs'; reflexivity).
    clear Hs'. rewrite Hds. split; [exact Hvalid|]. split; [exact Hfs|].
    intros env' td v Hv Hok.
    destruct (addTransaction_run env' td s' v Hv Hok) as [Hexp Hinc].
    rewrite Hds in Hinc.
    destruct (type td) eqn:Hty.
    + apply (proj1 (Hinc eq_refl)). exact Hvalid.
    + apply Hexp. reflexivity.
  - unfold validateProfitDistribution in *.
    destruct (Math_abs _ >? _); [|discriminate]. discriminate.
Qed.

End Saved.

(** After 60 and 40 have been saved, an income of 0.3 is applied, in
    binary64. *)
Lemma saved_distribution_accepts_valid_transactions_witness :
  exists s'' : FinancialState float,
    addTransaction env1 (income (decimal 3 10) (of_Z 0))
      (after (handleSaveDistribution env1 [("A", of_Z 60); ("B", of_Z 40)])
         three_funds)
    = (Ok tt, s'').
Proof.
  destruct (saved_distribution_accepts_valid_transactions (num := float) env1
              [("A", of_Z 60); ("B", of_Z 40)] three_funds
              (after (handleSaveDistribution env1 [("A", of_Z 60); ("B", of_Z 40)])
                 three_funds))
    as (_ & _ & Hruns).
  - vm_compute. reflexivity.
  - apply (Hruns env1 (income (decimal 3 10) (of_Z 0)) valid).
    + vm_compute. reflexivity.
    + reflexivity.
Defined.
